(** * code_review.py: the diff line mapper, the file selector, the comment
      formatter and the review pass, embedded in Rocq.

    Python [str] values are represented by their UTF-8 bytes ([string]):
    concatenation, [startswith], [endswith], [in], and [split] on an ASCII
    separator commute with that encoding.  [str.strip], [str.lower] and
    [int] are followed on ASCII text, where a byte above 127 counts as
    neither white space, digit nor cased letter; what is stated about the
    start read from an [@@] line is stated for lines of ASCII text
    ([is_ascii]).  Python integers are [Z]. *)

From Stdlib Require Import ZArith NArith List Bool Ascii String Lia.
From Stdlib Require Import Sorted DecimalString DecimalN SpecFloat.
Import ListNotations.

Open Scope string_scope.
Open Scope Z_scope.
Open Scope list_scope.

(** ** Exceptions and results *)

Inductive exn : Type :=
| IndexError
| ValueError
| TypeError
| KeyError
| JSONDecodeError
| HTTPError (status : Z).

Inductive result (A : Type) : Type :=
| Ok (a : A)
| Raise (e : exn).

Arguments Ok {A} a.
Arguments Raise {A} e.

Definition rbind {A B} (r : result A) (k : A -> result B) : result B :=
  match r with
  | Ok a => k a
  | Raise e => Raise e
  end.

Notation "x <- r ;; k" := (rbind r (fun x => k))
  (at level 61, r at next level, right associativity).

(** ** The built-ins of [str], [list] and [int] the program calls *)

Module Py.

(** The line feed, Python's ["\n"]. *)
Definition LF : ascii := ascii_of_nat 10.
Definition nl : string := String LF "".

Definition startswith (s pre : string) : bool := String.prefix pre s.

Fixpoint rev_string (s : string) : string :=
  match s with
  | "" => ""
  | String c s' => (rev_string s' ++ String c "")%string
  end.

Definition endswith (s suf : string) : bool :=
  String.prefix (rev_string suf) (rev_string s).

(** [sub in s] *)
Fixpoint contains (sub s : string) : bool :=
  String.prefix sub s ||
  match s with
  | "" => false
  | String _ s' => contains sub s'
  end.

(** [s.split(sep)] for a non-empty [sep]: the pieces between the
    non-overlapping occurrences of [sep], found from the left.  [skip]
    counts the bytes of a separator still to be passed over and [cur]
    holds the current piece. *)
Fixpoint split_from (sep : string) (skip : nat) (cur s : string)
  : list string :=
  match s with
  | "" => [cur]
  | String c s' =>
      match skip with
      | S k => split_from sep k cur s'
      | O =>
          if String.prefix sep s
          then cur :: split_from sep (String.length sep - 1) "" s'
          else split_from sep 0 (cur ++ String c "")%string s'
      end
  end.

Definition split (s sep : string) : list string := split_from sep 0 "" s.

(** [l[i]] for [i >= 0] *)
Definition item {A} (l : list A) (i : nat) : result A :=
  match nth_error l i with
  | Some a => Ok a
  | None => Raise IndexError
  end.

(** White space for [str.strip]: TAB..CR, FS..US and the space. *)
Definition isspace (c : ascii) : bool :=
  let n := nat_of_ascii c in
  ((9 <=? n) && (n <=? 13) || (28 <=? n) && (n <=? 31) || (n =? 32))%nat.

Fixpoint lstrip (s : string) : string :=
  match s with
  | "" => ""
  | String c s' => if isspace c then lstrip s' else s
  end.

Fixpoint rstrip (s : string) : string :=
  match s with
  | "" => ""
  | String c s' =>
      match rstrip s' with
      | "" => if isspace c then "" else String c ""
      | r => String c r
      end
  end.

Definition strip (s : string) : string := rstrip (lstrip s).

(** [s[n:]] *)
Fixpoint drop (n : nat) (s : string) : string :=
  match n, s with
  | O, _ => s
  | S _, "" => ""
  | S k, String _ s' => drop k s'
  end.

(** [s[:-1]] *)
Fixpoint but_last (s : string) : string :=
  match s with
  | "" => ""
  | String c "" => ""
  | String c s' => String c (but_last s')
  end.

Definition lower_char (c : ascii) : ascii :=
  let n := nat_of_ascii c in
  if ((65 <=? n) && (n <=? 90))%nat then ascii_of_nat (n + 32) else c.

Fixpoint lower (s : string) : string :=
  match s with
  | "" => ""
  | String c s' => String (lower_char c) (lower s')
  end.

(** *** [int(s)], base ten

    The interpreter skips white space (TAB..CR and the space) around the
    literal, takes one optional sign, then digits that single underscores
    may separate, and refuses a literal of more than [int_max_str_digits]
    digits. *)

Definition int_isspace (c : ascii) : bool :=
  let n := nat_of_ascii c in
  ((9 <=? n) && (n <=? 13) || (n =? 32))%nat.

Definition isdigit (c : ascii) : bool :=
  let n := nat_of_ascii c in ((48 <=? n) && (n <=? 57))%nat.

Definition underscore : ascii := "_"%char.

Fixpoint int_lstrip (s : string) : string :=
  match s with
  | "" => ""
  | String c s' => if int_isspace c then int_lstrip s' else s
  end.

Fixpoint all_int_space (s : string) : bool :=
  match s with
  | "" => true
  | String c s' => int_isspace c && all_int_space s'
  end.

(** Reads digits and underscores from the left.  [prev] tells whether
    the byte before was an underscore; the result is the digits read and
    what follows them, or [None] for a doubled or a trailing
    underscore. *)
Fixpoint int_scan (prev : bool) (s : string) : option (string * string) :=
  match s with
  | "" => if prev then None else Some ("", "")
  | String c s' =>
      if Ascii.eqb c underscore then
        if prev then None else int_scan true s'
      else if isdigit c then
        match int_scan false s' with
        | Some (ds, rest) => Some (String c ds, rest)
        | None => None
        end
      else if prev then None else Some ("", s)
  end.

(** The default of [sys.get_int_max_str_digits()]; 0 would switch the
    limit off. *)
Definition int_max_str_digits : nat := 4300.

Definition int_unsigned (s : string) : result Z :=
  match s with
  | "" => Raise ValueError
  | String c _ =>
      if Ascii.eqb c underscore then Raise ValueError
      else
        match int_scan false s with
        | None => Raise ValueError
        | Some (ds, rest) =>
            if negb (all_int_space rest) then Raise ValueError
            else if ((0 <? int_max_str_digits)
                     && (int_max_str_digits <? String.length ds))%nat
            then Raise ValueError
            else
              match ds, NilEmpty.uint_of_string ds with
              | String _ _, Some d => Ok (Z.of_N (N.of_uint d))
              | _, _ => Raise ValueError
              end
        end
  end.

Definition int (s : string) : result Z :=
  match int_lstrip s with
  | String c s' =>
      if Ascii.eqb c "+" then int_unsigned s'
      else if Ascii.eqb c "-" then n <- int_unsigned s' ;; Ok (- n)
      else int_unsigned (String c s')
  | "" => int_unsigned ""
  end.

(** [str(n)] for [n >= 0] *)
Definition str_of_N (n : N) : string :=
  NilEmpty.string_of_uint (N.to_uint n).

(** [str(n)] *)
Definition str_of_int (n : Z) : string :=
  if n <? 0 then String "-" (str_of_N (Z.to_N (- n)))
  else str_of_N (Z.to_N n).

End Py.

(** ** [parse_diff_for_new_lines] *)

(** The two locals of the function. *)
Record cursor : Type := mkCursor {
  new_lines : list Z;
  current_new_line : Z
}.

(** The body of the [try] block: the start of the new-file range of a hunk
    header. *)
Definition hunk_start (line : string) : result Z :=
  after_plus <- Py.item (Py.split line "+") 1 ;;
  before_at <- Py.item (Py.split after_plus "@@") 0 ;;
  let plus_part := Py.strip before_at in
  if Py.contains "," plus_part then
    start <- Py.item (Py.split plus_part ",") 0 ;;
    Py.int start
  else
    Py.int plus_part.

(** One turn of the [for] loop. *)
Definition parse_line (st : cursor) (line : string) : result cursor :=
  if Py.startswith line "@@" then
    match hunk_start line with
    | Ok n => Ok (mkCursor (new_lines st) n)
    | Raise IndexError => Ok st
    | Raise ValueError => Ok st
    | Raise e => Raise e
    end
  else if Py.startswith line "+" && negb (Py.startswith line "+++") then
    Ok (mkCursor (new_lines st ++ [current_new_line st])
                 (current_new_line st + 1))
  else if Py.startswith line "-" && negb (Py.startswith line "---") then
    Ok st
  else if negb (Py.startswith line "\") then
    Ok (mkCursor (new_lines st) (current_new_line st + 1))
  else
    Ok st.

Fixpoint parse_lines (st : cursor) (lines : list string) : result cursor :=
  match lines with
  | [] => Ok st
  | line :: rest => st' <- parse_line st line ;; parse_lines st' rest
  end.

Definition parse_diff_for_new_lines (diff : string) : result (list Z) :=
  st <- parse_lines (mkCursor [] 0) (Py.split diff Py.nl) ;;
  Ok (new_lines st).

(** ** [should_review_file] *)

(** [PurePosixPath(file_path).name]: the last component that is neither
    empty nor a lone dot. *)
Definition path_name (file_path : string) : string :=
  last (filter (fun p => negb (p =? "")%string && negb (p =? ".")%string)
               (Py.split file_path "/")) "".

(** [name.rfind(".")] *)
Fixpoint rfind_dot (name : string) : option nat :=
  match name with
  | "" => None
  | String c s' =>
      match rfind_dot s' with
      | Some i => Some (S i)
      | None => if Ascii.eqb c "."%char then Some O else None
      end
  end.

(** [PurePosixPath(file_path).suffix] (Python 3.10 to 3.13): from the last
    dot of the name, unless that dot opens or closes the name. *)
Definition path_suffix (file_path : string) : string :=
  let name := path_name file_path in
  match rfind_dot name with
  | Some i =>
      if ((0 <? i) && (i <? String.length name - 1))%nat
      then Py.drop i name else ""
  | None => ""
  end.

(** The two module-level collections [should_review_file] reads. *)
Record config : Type := mkConfig {
  IGNORE_PATTERNS : list string;
  REVIEW_EXTENSIONS : list string
}.

Definition default_config : config :=
  mkConfig
    [ "*.lock"; "*.min.js"; "*.min.css";
      "package-lock.json"; "yarn.lock"; "composer.lock"; "pnpm-lock.yaml";
      "__pycache__"; ".git"; "node_modules"; "vendor/";
      "*.generated.*"; "*.map";
      "storage/"; "bootstrap/cache/"; "public/build/"; "public/hot";
      "dist/"; "build/"; ".next/"; ".nuxt/";
      "_ide_helper*"; ".phpstorm.meta.php" ]
    [ ".php"; ".vue"; ".blade.php";
      ".py"; ".js"; ".ts"; ".tsx"; ".jsx"; ".mjs";
      ".java"; ".kt"; ".go"; ".rs"; ".rb";
      ".cs"; ".cpp"; ".c"; ".h"; ".swift" ].

Definition nonempty (s : string) : bool := negb (s =? "")%string.

(** [init_config], on the values of the environment variables
    IGNORE_PATTERNS and REVIEW_EXTENSIONS. *)
Definition init_config (ignore_extra extensions_extra : string) : config :=
  let patterns :=
    if nonempty ignore_extra then
      IGNORE_PATTERNS default_config ++
      map Py.strip
          (filter (fun p => nonempty (Py.strip p)) (Py.split ignore_extra ","))
    else IGNORE_PATTERNS default_config in
  let extensions :=
    if nonempty extensions_extra then
      REVIEW_EXTENSIONS default_config ++
      map (fun e => if Py.startswith (Py.strip e) "." then Py.strip e
                    else ("." ++ Py.strip e)%string)
          (filter (fun e => nonempty (Py.strip e))
                  (Py.split extensions_extra ","))
    else REVIEW_EXTENSIONS default_config in
  mkConfig patterns extensions.

(** The test one ignore pattern makes on the path. *)
Definition pattern_hits (file_path pattern : string) : bool :=
  if Py.startswith pattern "*" then
    (path_suffix file_path =? Py.drop 1 pattern)%string
    || Py.endswith (path_name file_path) (Py.drop 1 pattern)
  else if Py.endswith pattern "/" then
    Py.contains (Py.but_last pattern) file_path
  else
    Py.contains pattern file_path.

(** The [for] loop over the patterns, leaving at the first hit. *)
Fixpoint ignored (file_path : string) (patterns : list string) : bool :=
  match patterns with
  | [] => false
  | pattern :: rest =>
      if pattern_hits file_path pattern then true
      else ignored file_path rest
  end.

Definition should_review_file (cfg : config) (file_path : string) : bool :=
  if ignored file_path (IGNORE_PATTERNS cfg) then false
  else existsb (String.eqb (Py.lower (path_suffix file_path)))
               (REVIEW_EXTENSIONS cfg).

(** ** Values decoded from JSON *)

Set Warnings "-register-all".

(** What [json.loads] can return.  A float is kept as its IEEE 754 value;
    an object is the list of its members, read by the first match. *)
Inductive value : Type :=
| VNone
| VBool (b : bool)
| VInt (z : Z)
| VFloat (f : spec_float)
| VStr (s : string)
| VList (l : list value)
| VDict (d : list (string * value)).

Definition dict : Type := list (string * value).

Fixpoint lookup (d : dict) (key : string) : option value :=
  match d with
  | [] => None
  | (k, v) :: rest => if (k =? key)%string then Some v else lookup rest key
  end.

(** [d.get(key)] *)
Definition get (d : dict) (key : string) : value :=
  match lookup d key with
  | Some v => v
  | None => VNone
  end.

(** [d.get(key, default)] *)
Definition get_default (d : dict) (key : string) (default : value) : value :=
  match lookup d key with
  | Some v => v
  | None => default
  end.

(** [bool(v)] *)
Definition truthy (v : value) : bool :=
  match v with
  | VNone => false
  | VBool b => b
  | VInt z => negb (z =? 0)
  | VFloat (S754_zero _) => false
  | VFloat _ => true
  | VStr s => nonempty s
  | VList l => match l with [] => false | _ => true end
  | VDict d => match d with [] => false | _ => true end
  end.

(** [f == z] for a float and an integer: the comparison is exact. *)
Definition float_eq_int (f : spec_float) (z : Z) : bool :=
  match f with
  | S754_zero _ => z =? 0
  | S754_finite s m e =>
      let sm := if s then Z.neg m else Z.pos m in
      if 0 <=? e then z =? sm * 2 ^ e else z * 2 ^ (- e) =? sm
  | _ => false
  end.

(** [v == z] for an integer [z] *)
Definition eq_int (v : value) (z : Z) : bool :=
  match v with
  | VInt y => y =? z
  | VBool b => (if b then 1 else 0) =? z
  | VFloat f => float_eq_int f z
  | _ => false
  end.

(** [v in l] for a list of integers *)
Definition in_ints (v : value) (l : list Z) : bool := existsb (eq_int v) l.

(** ** [format_comment] *)

Definition severity_emoji : list (string * string) :=
  [ ("critical", "🔴"); ("warning", "🟡"); ("suggestion", "💡") ].

Fixpoint assoc (table : list (string * string)) (key : string)
  : option string :=
  match table with
  | [] => None
  | (k, v) :: rest => if (k =? key)%string then Some v else assoc rest key
  end.

(** [severity_emoji.get(key, "💬")]: a list or a dict is no key at all. *)
Definition emoji_of (key : value) : result string :=
  match key with
  | VStr s =>
      match assoc severity_emoji s with
      | Some e => Ok e
      | None => Ok "💬"
      end
  | VList _ => Raise TypeError
  | VDict _ => Raise TypeError
  | _ => Ok "💬"
  end.

Section Formatting.

(** [str(v)] for the floats, lists and dicts, which the embedding does
    not print itself. *)
Variable repr : value -> string.

(** What an f-string puts for [{v}]. *)
Definition str (v : value) : string :=
  match v with
  | VNone => "None"
  | VBool true => "True"
  | VBool false => "False"
  | VInt z => Py.str_of_int z
  | VStr s => s
  | _ => repr v
  end.

Definition format_comment (comment : dict) : result string :=
  emoji <- emoji_of (get_default comment "severity" (VStr "suggestion")) ;;
  let message := get_default comment "message" (VStr "") in
  let suggestion := get_default comment "suggestion" (VStr "") in
  let text := (emoji ++ " **RejPAL**: " ++ str message)%string in
  if truthy suggestion then
    Ok (text ++ Py.nl ++ Py.nl ++ "> 💡 **Návrh**: " ++ str suggestion)%string
  else
    Ok text.

End Formatting.

(** ** Notes and discussions, as the GitLab API returns them *)

Record position : Type := mkPosition {
  new_path : string;
  new_line : Z
}.

Record note : Type := mkNote {
  id : Z;
  body : string;
  note_position : option position
}.

Record discussion : Type := mkDiscussion {
  discussion_id : string;
  notes : list note
}.

Fixpoint find_existing_summary_note (notes : list note) : option Z :=
  match notes with
  | [] => None
  | note :: rest =>
      if Py.contains "## RejPAL" (body note)
         || Py.contains "## 🤖 AI Code Review" (body note)
      then Some (id note)
      else find_existing_summary_note rest
  end.

(** An entry of the list [get_existing_ai_comments] builds. *)
Record ai_comment : Type := mkAiComment {
  note_id : Z;
  in_discussion : string;
  file_path : option string;
  line : option Z
}.

Definition ai_comments_of (d : discussion) : list ai_comment :=
  flat_map
    (fun n =>
       if negb (Py.contains "**RejPAL**" (body n))
          && negb (Py.contains "**AI Review**" (body n))
       then []
       else [ mkAiComment (id n) (discussion_id d)
                          (option_map new_path (note_position n))
                          (option_map new_line (note_position n)) ])
    (notes d).

Definition get_existing_ai_comments (discussions : list discussion)
  : list ai_comment :=
  flat_map ai_comments_of discussions.

(** ** The review pass

    The GitLab server and the advisory service are outside the program.
    [Remote] is what the program sees of them: every request takes the
    outside world to a new one and yields the HTTP status with the decoded
    body.  The pass threads the world and the list of the requests made so
    far; an exception ends it and keeps both.  What is printed is left
    out, and so is the start of [main] that only reads the environment. *)

Record change : Type := mkChange {
  change_new_path : string;
  diff : string;
  deleted_file : bool
}.

Record diff_refs : Type := mkDiffRefs {
  base_sha : value;
  head_sha : value;
  start_sha : value
}.

(** What the prompt of [analyze_with_ai] is made of; the prompt itself,
    with the content cut to MAX_FILE_SIZE, is text for the advisory service
    alone. *)
Record advisory_request : Type := mkRequest {
  about_path : string;
  about_content : string;
  about_diff : string;
  about_lines : list Z;
  about_rules : string
}.

Record Remote (W : Type) : Type := mkRemote {
  http_get_info : W -> W * (Z * string);
  http_get_changes : W -> W * (Z * (diff_refs * list change));
  http_get_discussions : W -> W * (Z * list discussion);
  http_get_notes : W -> W * (Z * list note);
  http_get_file : string -> string -> W -> W * (Z * string);
  http_post_discussion :
    string -> string -> value -> diff_refs -> W -> W * Z;
  http_post_note : string -> W -> W * (Z * dict);
  http_put_note : value -> string -> W -> W * Z;
  http_delete_note : Z -> W -> W * Z;
  chat : advisory_request -> W -> W * string
}.

Arguments http_get_info {W}.
Arguments http_get_changes {W}.
Arguments http_get_discussions {W}.
Arguments http_get_notes {W}.
Arguments http_get_file {W}.
Arguments http_post_discussion {W}.
Arguments http_post_note {W}.
Arguments http_put_note {W}.
Arguments http_delete_note {W}.
Arguments chat {W}.

(** A request made, with the status that came back and, for the two
    listings, what was listed. *)
Inductive event : Type :=
| GetInfo (status : Z)
| GetChanges (status : Z)
| GetDiscussions (status : Z) (listing : list discussion)
| GetNotes (status : Z) (listing : list note)
| GetFile (path ref : string) (status : Z)
| PostDiscussion (text path : string) (at_line : value) (status : Z)
| PostNote (text : string) (status : Z)
| PutNote (target : value) (text : string) (status : Z)
| DeleteNote (target : Z) (status : Z)
| Chat (request : advisory_request).

Record io (W : Type) : Type := mkIo {
  world : W;
  trace : list event
}.

Arguments mkIo {W}.
Arguments world {W}.
Arguments trace {W}.

Definition M (W A : Type) : Type := io W -> result A * io W.

Definition ret {W A} (a : A) : M W A := fun s => (Ok a, s).

Definition throw {W A} (e : exn) : M W A := fun s => (Raise e, s).

Definition bind {W A B} (m : M W A) (k : A -> M W B) : M W B :=
  fun s =>
    match m s with
    | (Ok a, s') => k a s'
    | (Raise e, s') => (Raise e, s')
    end.

Definition lift {W A} (r : result A) : M W A := fun s => (r, s).

Notation "x <~ m ;; k" := (bind m (fun x => k))
  (at level 61, m at next level, right associativity).

(** One request: the world moves on and the request is recorded. *)
Definition request {W A} (op : W -> W * A) (ev : A -> event) : M W A :=
  fun s =>
    let (w, a) := op (world s) in
    (Ok a, mkIo w (trace s ++ [ev a])).

(** [response.raise_for_status()] *)
Definition raise_for_status {W} (status : Z) : M W unit :=
  if (400 <=? status) && (status <? 600) then throw (HTTPError status)
  else ret tt.

(** [summary_note_id] as a Python value *)
Definition value_of_id (found : option Z) : value :=
  match found with
  | Some z => VInt z
  | None => VNone
  end.

Definition PLACEHOLDER : string :=
  "## RejPAL" ++ Py.nl ++ Py.nl ++ "⏳ Probíhá analýza...".

(** The closing f-string of [main]. *)
Definition summary_text (reviewed_files total_comments deleted_count : Z)
  : string :=
  "## RejPAL" ++ Py.nl ++ Py.nl
  ++ "| Metrika | Hodnota |" ++ Py.nl
  ++ "|---------|---------|" ++ Py.nl
  ++ "| Zkontrolováno souborů | " ++ Py.str_of_int reviewed_files ++ " |"
  ++ Py.nl
  ++ "| Připomínek | " ++ Py.str_of_int total_comments ++ " |" ++ Py.nl
  ++ "| Smazáno starých | " ++ Py.str_of_int deleted_count ++ " |" ++ Py.nl
  ++ Py.nl
  ++ (if total_comments =? 0 then "✨ Žádné významné problémy."
      else "👆 Viz inline komentáře.")
  ++ Py.nl ++ Py.nl ++ "<sub>Generováno automaticky</sub>" ++ Py.nl.

(** Iterating over a decoded value: the elements of a list, the keys of a
    dict, the one-character strings of a string (here one per byte; none
    of them is a dict). *)
Definition iterate (v : value) : result (list value) :=
  match v with
  | VList l => Ok l
  | VDict d => Ok (map (fun kv => VStr (fst kv)) d)
  | VStr s => Ok (map (fun c => VStr (String c "")) (list_ascii_of_string s))
  | _ => Raise TypeError
  end.

(** The condition of the list comprehension of [analyze_with_ai]. *)
Definition is_valid_comment (changed_lines : list Z) (c : value) : bool :=
  match c with
  | VDict d => in_ints (get d "line") changed_lines && truthy (get d "message")
  | _ => false
  end.

Definition dict_of (c : value) : dict :=
  match c with
  | VDict d => d
  | _ => []
  end.

Section Pass.

Variable repr : value -> string.
(** [json.loads] *)
Variable json_loads : string -> result value.
Variable W : Type.
Variable gitlab : Remote W.

(** *** [GitLabClient] *)

Definition get_mr_info : M W string :=
  r <~ request (http_get_info gitlab) (fun r => GetInfo (fst r)) ;;
  _ <~ raise_for_status (fst r) ;;
  ret (snd r).

Definition get_mr_changes : M W (diff_refs * list change) :=
  r <~ request (http_get_changes gitlab) (fun r => GetChanges (fst r)) ;;
  _ <~ raise_for_status (fst r) ;;
  ret (snd r).

(** [None] stands for Python's [None]. *)
Definition get_file_content (path ref : string) : M W (option string) :=
  r <~ request (http_get_file gitlab path ref)
               (fun r => GetFile path ref (fst r)) ;;
  if fst r =? 404 then ret None
  else _ <~ raise_for_status (fst r) ;; ret (Some (snd r)).

Definition create_mr_discussion
    (text path : string) (at_line : value) (refs : diff_refs) : M W Z :=
  request (http_post_discussion gitlab text path at_line refs)
          (fun status => PostDiscussion text path at_line status).

Definition create_mr_note (text : string) : M W dict :=
  r <~ request (http_post_note gitlab text) (fun r => PostNote text (fst r)) ;;
  _ <~ raise_for_status (fst r) ;;
  ret (snd r).

Definition get_mr_discussions : M W (list discussion) :=
  r <~ request (http_get_discussions gitlab)
               (fun r => GetDiscussions (fst r) (snd r)) ;;
  _ <~ raise_for_status (fst r) ;;
  ret (snd r).

Definition get_mr_notes : M W (list note) :=
  r <~ request (http_get_notes gitlab)
               (fun r => GetNotes (fst r) (snd r)) ;;
  _ <~ raise_for_status (fst r) ;;
  ret (snd r).

Definition update_mr_note (target : value) (text : string) : M W unit :=
  status <~ request (http_put_note gitlab target text)
                    (fun status => PutNote target text status) ;;
  raise_for_status status.

(** The status is only printed when it is 400 or more. *)
Definition delete_mr_note (target : Z) : M W Z :=
  request (http_delete_note gitlab target)
          (fun status => DeleteNote target status).

(** *** [analyze_with_ai], from the reply of the advisory service on *)

Definition strip_fence (response_text : string) : result string :=
  if Py.startswith response_text "```" then
    inner <- Py.item (Py.split response_text "```") 1 ;;
    if Py.startswith inner "json" then Ok (Py.drop 4 inner) else Ok inner
  else Ok response_text.

Definition decode_comments (changed_lines : list Z) (response_text : string)
  : result (list value) :=
  text <- strip_fence response_text ;;
  match json_loads text with
  | Ok comments =>
      elements <- iterate comments ;;
      Ok (filter (is_valid_comment changed_lines) elements)
  | Raise JSONDecodeError => Ok []
  | Raise e => Raise e
  end.

Definition analyze_with_ai (about : advisory_request) : M W (list value) :=
  response_text <~ request (chat gitlab about) (fun _ => Chat about) ;;
  lift (decode_comments (about_lines about) response_text).

(** *** [main] *)

(** The loop that deletes the comments of earlier passes. *)
Fixpoint delete_existing (existing : list ai_comment) (deleted_count : Z)
  : M W Z :=
  match existing with
  | [] => ret deleted_count
  | comment :: rest =>
      _ <~ delete_mr_note (note_id comment) ;;
      delete_existing rest (deleted_count + 1)
  end.

(** Find or create the summary note. *)
Definition ensure_summary : M W value :=
  notes <~ get_mr_notes ;;
  let summary_note_id := value_of_id (find_existing_summary_note notes) in
  if negb (truthy summary_note_id) then
    created <~ create_mr_note PLACEHOLDER ;;
    ret (get created "id")
  else ret summary_note_id.

(** The inner loop, over the comments kept for one file. *)
Fixpoint publish (path : string) (refs : diff_refs) (comments : list value)
    (total_comments : Z) : M W Z :=
  match comments with
  | [] => ret total_comments
  | comment :: rest =>
      let at_line := get (dict_of comment) "line" in
      text <~ lift (format_comment repr (dict_of comment)) ;;
      _ <~ create_mr_discussion text path at_line refs ;;
      publish path refs rest (total_comments + 1)
  end.

(** One turn of the loop over the changes; the pair is
    [(total_comments, reviewed_files)]. *)
Definition review_change (cfg : config) (rules source_branch : string)
    (refs : diff_refs) (counters : Z * Z) (c : change) : M W (Z * Z) :=
  let (total_comments, reviewed_files) := counters in
  if negb (should_review_file cfg (change_new_path c)) then ret counters
  else if deleted_file c then ret counters
  else
    let reviewed_files := reviewed_files + 1 in
    changed_lines <~ lift (parse_diff_for_new_lines (diff c)) ;;
    match changed_lines with
    | [] => ret (total_comments, reviewed_files)
    | _ =>
        file_content <~ get_file_content (change_new_path c) source_branch ;;
        match file_content with
        | None => ret (total_comments, reviewed_files)
        | Some "" => ret (total_comments, reviewed_files)
        | Some content =>
            comments <~ analyze_with_ai
              (mkRequest (change_new_path c) content (diff c)
                         changed_lines rules) ;;
            total <~ publish (change_new_path c) refs comments
                             total_comments ;;
            ret (total, reviewed_files)
        end
    end.

Fixpoint review_changes (cfg : config) (rules source_branch : string)
    (refs : diff_refs) (changes : list change) (counters : Z * Z)
  : M W (Z * Z) :=
  match changes with
  | [] => ret counters
  | c :: rest =>
      counters' <~ review_change cfg rules source_branch refs counters c ;;
      review_changes cfg rules source_branch refs rest counters'
  end.

Definition main (ignore_extra extensions_extra rules : string) : M W unit :=
  let cfg := init_config ignore_extra extensions_extra in
  source_branch <~ get_mr_info ;;
  mr_changes <~ get_mr_changes ;;
  let refs := fst mr_changes in
  discussions <~ get_mr_discussions ;;
  let existing_ai_comments := get_existing_ai_comments discussions in
  deleted_count <~ delete_existing existing_ai_comments 0 ;;
  summary_note_id <~ ensure_summary ;;
  counters <~ review_changes cfg rules source_branch refs
                             (snd mr_changes) (0, 0) ;;
  update_mr_note summary_note_id
                 (summary_text (snd counters) (fst counters) deleted_count).

End Pass.

(** ** Inputs and readings used in the statements *)

(** The diff of the worked example of the specification. *)
Definition example_diff : string :=
  "@@ -1,2 +10,3 @@" ++ Py.nl ++ " context" ++ Py.nl ++ "+added1" ++ Py.nl
  ++ "-removed" ++ Py.nl ++ "+added2" ++ Py.nl.

(** How the loop of [parse_diff_for_new_lines] reads a line that is not a
    hunk header. *)
Definition is_added (line : string) : bool :=
  Py.startswith line "+" && negb (Py.startswith line "+++").

Definition is_removed (line : string) : bool :=
  Py.startswith line "-" && negb (Py.startswith line "---").

(** The lines that move the cursor without recording it. *)
Definition advances (line : string) : bool :=
  negb (Py.startswith line "@@") && negb (is_added line)
  && negb (is_removed line) && negb (Py.startswith line "\").

(** A note that [find_existing_summary_note] takes for the summary. *)
Definition is_summary_note (n : note) : bool :=
  Py.contains "## RejPAL" (body n)
  || Py.contains "## 🤖 AI Code Review" (body n).

Definition is_post_note (e : event) : bool :=
  match e with
  | PostNote _ _ => true
  | _ => false
  end.

Definition is_delete_note (e : event) : bool :=
  match e with
  | DeleteNote _ _ => true
  | _ => false
  end.

(** A delete request that the server carried out. *)
Definition is_deleted (e : event) : bool :=
  match e with
  | DeleteNote _ status => status <? 400
  | _ => false
  end.

(** What a computation adds to the trace, and what it returns. *)
Definition emits {W A} (m : M W A) (P : result A -> list event -> Prop)
  : Prop :=
  forall s, exists evs,
    trace (snd (m s)) = trace s ++ evs /\ P (fst (m s)) evs.

(** *** Servers for the concrete runs *)

Definition no_refs : diff_refs := mkDiffRefs VNone VNone VNone.

(** A server holding one comment of an earlier pass and the summary note;
    it refuses every delete with 403. *)
Definition refusing_server : Remote unit :=
  mkRemote unit
    (fun w => (w, (200, "feature")))
    (fun w => (w, (200, (no_refs, []))))
    (fun w => (w, (200, [mkDiscussion "d1"
                           [mkNote 7 "🔴 **RejPAL**: old remark"
                                   (Some (mkPosition "a.py" 3))]])))
    (fun w => (w, (200, [mkNote 5 "## RejPAL" None])))
    (fun _ _ w => (w, (200, "")))
    (fun _ _ _ _ w => (w, 201))
    (fun _ w => (w, (201, [("id", VInt 9)])))
    (fun _ _ w => (w, 200))
    (fun _ w => (w, 403))
    (fun _ w => (w, "[]")).

(** A server with one changed file; the advisory reply is decoded by
    [reply_of] below. *)
Definition one_file_server : Remote unit :=
  mkRemote unit
    (fun w => (w, (200, "feature")))
    (fun w => (w, (200, (no_refs, [mkChange "src/app.py" example_diff false]))))
    (fun w => (w, (200, [])))
    (fun w => (w, (200, [mkNote 5 "## RejPAL" None])))
    (fun _ _ w => (w, (200, "print(1)")))
    (fun _ _ _ _ w => (w, 201))
    (fun _ w => (w, (201, [("id", VInt 9)])))
    (fun _ _ w => (w, 200))
    (fun _ w => (w, 204))
    (fun _ w => (w, "[...]")).

(** Findings on line 11 (kept), line 99 (not an added line) and line 12
    with an empty message. *)
Definition three_findings : list value :=
  [ VDict [("line", VInt 11); ("severity", VStr "warning");
           ("message", VStr "m")];
    VDict [("line", VInt 99); ("severity", VStr "warning");
           ("message", VStr "m")];
    VDict [("line", VInt 12); ("severity", VStr "warning");
           ("message", VStr "")] ].

Definition reply_of (text : string) : result value := Ok (VList three_findings).

Definition start : io unit := mkIo tt [].

(** *** Readings of a trace *)

(** Every event added satisfies [P]. *)
Definition only {A} (P : event -> Prop) : result A -> list event -> Prop :=
  fun _ evs => Forall P evs.

(** Every listing of the notes shows a summary note, and no note has the
    identifier 0. *)
Definition summary_kept {W} (gitlab : Remote W) : Prop :=
  forall w,
    Exists (fun n => is_summary_note n = true)
           (snd (snd (http_get_notes gitlab w)))
    /\ Forall (fun n => id n <> 0) (snd (snd (http_get_notes gitlab w))).

(** At most one note is created, and none under [summary_kept]. *)
Definition few_posts {W A} (gitlab : Remote W)
  : result A -> list event -> Prop :=
  fun _ evs =>
    (List.length (filter is_post_note evs) <= 1)%nat
    /\ (summary_kept gitlab -> filter is_post_note evs = []).

Definition no_post (e : event) : Prop := is_post_note e = false.

(** An event that is no delete request and, if it updates a note, writes
    the summary with the count [dc] of deleted comments. *)
Definition reports (dc : Z) (e : event) : Prop :=
  is_delete_note e = false
  /\ forall target text st,
      e = PutNote target text st ->
      exists reviewed total, text = summary_text reviewed total dc.

Definition no_delete_no_put (e : event) : Prop :=
  is_delete_note e = false
  /\ forall target text st, e <> PutNote target text st.

(** Every summary written states as deleted the number of delete
    requests made. *)
Definition attempts_reported {A} : result A -> list event -> Prop :=
  fun _ evs =>
    forall target text st,
      In (PutNote target text st) evs ->
      exists reviewed total,
        text = summary_text reviewed total
                 (Z.of_nat (List.length (filter is_delete_note evs))).

(** *** Unified diffs, as [git diff] writes them

    A diff of one file is a list of hunks; a hunk gives the first line of
    its range in the old and in the new file, the text after the closing
    [@@] and its lines.  The counts of the header are those of the lines,
    and a count of 1 is left out, as git does. *)

Inductive diff_line : Type :=
| Context (text : string)
| Added (text : string)
| Removed (text : string)
| NoNewline.

Record hunk : Type := mkHunk {
  old_start : N;
  new_start : N;
  heading : string;
  hunk_body : list diff_line
}.

Record unified_diff : Type := mkDiff {
  file_names : option (string * string);
  hunks : list hunk
}.

Definition in_new_file (l : diff_line) : bool :=
  match l with
  | Context _ => true
  | Added _ => true
  | _ => false
  end.

Definition in_old_file (l : diff_line) : bool :=
  match l with
  | Context _ => true
  | Removed _ => true
  | _ => false
  end.

Definition count (f : diff_line -> bool) (body : list diff_line) : N :=
  N.of_nat (List.length (filter f body)).

Definition range (first_line size : N) : string :=
  if (size =? 1)%N then Py.str_of_N first_line
  else Py.str_of_N first_line ++ "," ++ Py.str_of_N size.

Definition header_of (h : hunk) : string :=
  "@@ -" ++ range (old_start h) (count in_old_file (hunk_body h))
  ++ " +" ++ range (new_start h) (count in_new_file (hunk_body h))
  ++ " @@" ++ heading h.

Definition text_of (l : diff_line) : string :=
  match l with
  | Context text => " " ++ text
  | Added text => "+" ++ text
  | Removed text => "-" ++ text
  | NoNewline => "\ No newline at end of file"
  end.

Definition hunk_text (h : hunk) : list string :=
  header_of h :: map text_of (hunk_body h).

Definition diff_text (d : unified_diff) : list string :=
  match file_names d with
  | Some (a, b) => [("--- " ++ a)%string; ("+++ " ++ b)%string]
  | None => []
  end ++ flat_map hunk_text (hunks d).

(** Every line ends with a line feed. *)
Fixpoint unlines (lines : list string) : string :=
  match lines with
  | [] => ""
  | l :: rest => l ++ Py.nl ++ unlines rest
  end.

Definition render (d : unified_diff) : string := unlines (diff_text d).

(** The place in the new file of the [i]-th line of a hunk: the start of
    the hunk plus the lines of the new file before it. *)
Definition new_position (h : hunk) (i : nat) : Z :=
  Z.of_N (new_start h + count in_new_file (firstn i (hunk_body h))).

(** The places of the lines of a hunk that [keep] selects, in order. *)
Definition positions (keep : diff_line -> bool) (h : hunk) : list Z :=
  flat_map
    (fun i =>
       match nth_error (hunk_body h) i with
       | Some l => if keep l then [new_position h i] else []
       | None => []
       end)
    (seq 0 (List.length (hunk_body h))).

Definition is_added_line (l : diff_line) : bool :=
  match l with
  | Added _ => true
  | _ => false
  end.


Definition added_lines (d : unified_diff) : list Z :=
  flat_map (positions is_added_line) (hunks d).


Fixpoint has_char (c : ascii) (s : string) : bool :=
  match s with
  | "" => false
  | String a s' => Ascii.eqb a c || has_char c s'
  end.








(** A diff that replaces the first line, [-- old], of a file of two. *)
Definition dashed_diff : unified_diff :=
  mkDiff (Some ("a/q.php", "b/q.php"))
         [mkHunk 1 1 "" [Removed "-- old"; Added "new"; Context "kept"]].

(** The diff of the worked example. *)
Definition example_unified : unified_diff :=
  mkDiff None
         [mkHunk 1 10 "" [Context "context"; Added "added1";
                          Removed "removed"; Added "added2"]].

(** Every byte of [s] satisfies [p]. *)
Fixpoint all_chars (p : ascii -> bool) (s : string) : bool :=
  match s with
  | "" => true
  | String a s' => p a && all_chars p s'
  end.

(** What precedes the first [c] in [s]. *)
Fixpoint until (c : ascii) (s : string) : string :=
  match s with
  | "" => ""
  | String a s' => if Ascii.eqb a c then "" else String a (until c s')
  end.



(** *** Readings for the further properties *)

(** A note that [get_existing_ai_comments] takes for a comment of an
    earlier pass. *)
Definition is_ai_note (n : note) : bool :=
  Py.contains "**RejPAL**" (body n) || Py.contains "**AI Review**" (body n).

Definition is_post_discussion (e : event) : bool :=
  match e with
  | PostDiscussion _ _ _ _ => true
  | _ => false
  end.

(** A change that passes the two tests at the head of the loop of
    [main]. *)
Definition reviewable (cfg : config) (c : change) : bool :=
  should_review_file cfg (change_new_path c) && negb (deleted_file c).

(** What one change adds to the counters. *)
Definition counted (cfg : config) (total files : Z) (c : change)
  : result (Z * Z) -> list event -> Prop :=
  fun r evs =>
    forall t f,
      r = Ok (t, f) ->
      t = total + Z.of_nat (List.length (filter is_post_discussion evs))
      /\ f = files + (if reviewable cfg c then 1 else 0).

(** ** [AIClient] and the checks at the head of [main] *)

(** A variable of the environment: [None] when it is not set.  It counts
    as given when it is set to a non-empty string. *)
Definition given (v : option string) : bool :=
  match v with
  | Some s => nonempty s
  | None => false
  end.

Definition _detect_provider
    (provider : string) (openai_api_key anthropic_api_key : option string)
  : result string :=
  if negb (provider =? "auto")%string then Ok provider
  else if given openai_api_key then Ok "openai"
  else if given anthropic_api_key then Ok "anthropic"
  else Raise ValueError.

Inductive backend : Type :=
| OpenAI
| Anthropic.

Record ai_client : Type := mkAiClient {
  client_provider : string;
  client_backend : backend;
  client_api_key : option string;
  client_model : string
}.

(** [_init_client]: every provider but [openai] gets the Anthropic
    client. *)
Definition _init_client
    (provider : string) (openai_api_key anthropic_api_key : option string)
    (openai_model anthropic_model : string) : ai_client :=
  if (provider =? "openai")%string
  then mkAiClient provider OpenAI openai_api_key openai_model
  else mkAiClient provider Anthropic anthropic_api_key anthropic_model.

(** [AIClient(provider)] *)
Definition AIClient
    (provider : string) (openai_api_key anthropic_api_key : option string)
    (openai_model anthropic_model : string) : result ai_client :=
  detected <- _detect_provider provider openai_api_key anthropic_api_key ;;
  Ok (_init_client detected openai_api_key anthropic_api_key
                   openai_model anthropic_model).

(** The list [missing] of [main]; the pass starts only when it is
    empty. *)
Definition missing_variables
    (project_id mr_iid gitlab_token openai_api_key anthropic_api_key
     : option string) : list string :=
  (if negb (given project_id) then ["CI_PROJECT_ID"] else [])
  ++ (if negb (given mr_iid) then ["CI_MERGE_REQUEST_IID"] else [])
  ++ (if negb (given gitlab_token) then ["GITLAB_TOKEN"] else [])
  ++ (if negb (given openai_api_key) && negb (given anthropic_api_key)
      then ["OPENAI_API_KEY nebo ANTHROPIC_API_KEY"] else []).

(** ** The addresses [GitLabClient] asks *)

(** [s.rstrip("/")] *)
Fixpoint rstrip_slash (s : string) : string :=
  match s with
  | "" => ""
  | String c s' =>
      match rstrip_slash s' with
      | "" => if Ascii.eqb c "/" then "" else String c ""
      | r => String c r
      end
  end.

Record gitlab_client : Type := mkClient {
  base_url : string;
  project_id : string;
  private_token : string
}.

(** [GitLabClient(base_url, token, project_id)] *)
Definition GitLabClient (url token project : string) : gitlab_client :=
  mkClient (rstrip_slash url) project token.

Definition _api (self : gitlab_client) (endpoint : string) : string :=
  base_url self ++ "/api/v4/projects/" ++ project_id self ++ "/" ++ endpoint.

(** [urllib.parse.quote(s, safe="")] on the UTF-8 bytes of [s]: letters,
    digits and [_.-~] stay, every other byte becomes [%] and two upper-case
    hexadecimal digits. *)
Definition always_safe (c : ascii) : bool :=
  let n := nat_of_ascii c in
  ((65 <=? n) && (n <=? 90) || (97 <=? n) && (n <=? 122)
   || (48 <=? n) && (n <=? 57)
   || (n =? 95) || (n =? 46) || (n =? 45) || (n =? 126))%nat.

Definition hex_digit (n : nat) : ascii :=
  if (n <? 10)%nat then ascii_of_nat (48 + n) else ascii_of_nat (55 + n).

Definition quote_byte (c : ascii) : string :=
  if always_safe c then String c ""
  else String "%" (String (hex_digit (nat_of_ascii c / 16))
                     (String (hex_digit (nat_of_ascii c mod 16)) "")).

Fixpoint quote (s : string) : string :=
  match s with
  | "" => ""
  | String c s' => quote_byte c ++ quote s'
  end.

(** The address [get_file_content] asks. *)
Definition file_url (self : gitlab_client) (path ref : string) : string :=
  _api self ("repository/files/" ++ quote path ++ "/raw?ref=" ++ ref).

(** The address of the notes of a merge request, and of one note. *)
Definition notes_url (self : gitlab_client) (mr_iid : string) : string :=
  _api self ("merge_requests/" ++ mr_iid ++ "/notes").

Definition note_url (self : gitlab_client) (mr_iid : string) (note : Z)
  : string :=
  _api self ("merge_requests/" ++ mr_iid ++ "/notes/" ++ Py.str_of_int note).

(** The value of a hexadecimal digit, and the reading that undoes
    [quote] on what [quote] writes. *)
Definition hex_value (c : ascii) : nat :=
  let n := nat_of_ascii c in
  if (n <? 58)%nat then n - 48 else n - 55.

Fixpoint unquote (s : string) : string :=
  match s with
  | "" => ""
  | String c rest =>
      if Ascii.eqb c "%" then
        match rest with
        | String h (String l rest') =>
            String (ascii_of_nat (16 * hex_value h + hex_value l))
                   (unquote rest')
        | _ => String c (unquote rest)
        end
      else String c (unquote rest)
  end.

Definition url_char (c : ascii) : bool := always_safe c || Ascii.eqb c "%".

(** ** HTTP statuses that end the pass *)

Definition refused (status : Z) : bool := (400 <=? status) && (status <? 600).

(** The status of a request after which the client raises. *)
Definition fatal_status (e : event) : option Z :=
  match e with
  | GetInfo st | GetChanges st | GetDiscussions st _ | GetNotes st _
  | PostNote _ st | PutNote _ _ st =>
      if refused st then Some st else None
  | GetFile _ _ st =>
      if st =? 404 then None else if refused st then Some st else None
  | PostDiscussion _ _ _ _ | DeleteNote _ _ | Chat _ => None
  end.

(** A trace in which no request was refused fatally, or only the last
    one, the result then being the HTTP error of its status. *)
Definition stops_at_refusal {A} : result A -> list event -> Prop :=
  fun r evs =>
    Forall (fun e => fatal_status e = None) evs
    \/ exists before e st,
        evs = before ++ [e]
        /\ Forall (fun e => fatal_status e = None) before
        /\ fatal_status e = Some st
        /\ r = Raise (HTTPError st).

Definition harmless (e : event) : Prop := fatal_status e = None.

(** A delete request for a note of an earlier listing of the discussions
    that holds an authorship marker. *)
Definition deletes_marked (listed : list discussion) (e : event) : Prop :=
  forall target st,
    e = DeleteNote target st ->
    exists d n,
      In d listed /\ In n (notes d) /\ is_ai_note n = true /\ target = id n.

Definition no_delete (e : event) : Prop := is_delete_note e = false.

(** Every delete request in [evs] is for a marked note of a listing of the
    discussions found in [evs] too. *)
Definition deletions_listed {A} : result A -> list event -> Prop :=
  fun _ evs =>
    forall target st,
      In (DeleteNote target st) evs ->
      exists st0 listed d n,
        In (GetDiscussions st0 listed) evs
        /\ In d listed /\ In n (notes d) /\ is_ai_note n = true
        /\ target = id n.

(** ** The start an [@@] line gives *)

(** Every byte of [s] is below 128.  On such text [Py.strip] and [Py.int]
    read what [str.strip] and [int] read. *)
Definition is_ascii (s : string) : bool :=
  all_chars (fun c => (nat_of_ascii c <? 128)%nat) s.

(** What follows the first [c] in [s]. *)
Fixpoint after_first (c : ascii) (s : string) : string :=
  match s with
  | "" => ""
  | String a s' => if Ascii.eqb a c then s' else after_first c s'
  end.

(** What precedes the first occurrence of [sep] in [s]; all of [s] when
    there is none. *)
Fixpoint before (sep s : string) : string :=
  match s with
  | "" => ""
  | String a s' => if String.prefix sep s then "" else String a (before sep s')
  end.

(** The text in which the start is looked for: what stands after the first
    [+] of the line, up to the next [+], cut at the first [@@], without the
    white space around it, and cut at the first comma. *)
Definition start_field (line : string) : string :=
  until "," (Py.strip (before "@@" (until "+" (after_first "+" line)))).

(** The start read from a line, when one is read: the line holds a [+] and
    its start field is an integer literal. *)
Definition start_read (line : string) : option Z :=
  if has_char "+" line then
    match Py.int (start_field line) with
    | Ok n => Some n
    | Raise _ => None
    end
  else None.

(** The bytes an integer literal is made of. *)
Definition numeral_char (c : ascii) : bool :=
  Py.isdigit c || Ascii.eqb c Py.underscore || Ascii.eqb c "+"
  || Ascii.eqb c "-" || Py.int_isspace c.

(** ** The glyph of a severity *)

(** The glyph for a severity given as text. *)
Definition glyph (severity : string) : string :=
  if (severity =? "critical")%string then "🔴"
  else if (severity =? "warning")%string then "🟡"
  else if (severity =? "suggestion")%string then "💡"
  else "💬".

(** The quoted block that carries a suggestion. *)
Definition suggestion_block (text : string) : string :=
  Py.nl ++ Py.nl ++ "> 💡 **Návrh**: " ++ text.

(** A finding on an added line, with a message, whose severity is a JSON
    array. *)
Definition array_severity_finding : dict :=
  [("line", VInt 11); ("severity", VList [VStr "critical"]);
   ("message", VStr "m")].

(** ** A server that keeps the notes *)

(** The notes of the merge request, the newest first, and the identifier
    the next note gets. *)
Record store : Type := mkStore {
  held : list note;
  fresh : Z
}.

(** The number of entries GitLab lists for one request that names no
    page size. *)
Definition PER_PAGE : nat := 20.

Definition holds (target : Z) (w : store) : bool :=
  existsb (fun n => id n =? target) (held w).

Definition rewritten (target : Z) (text : string) (n : note) : note :=
  if id n =? target then mkNote (id n) text (note_position n) else n.

Definition added_note (text : string) (w : store) : store :=
  mkStore (mkNote (fresh w) text None :: held w) (fresh w + 1).

(** A merge request with no changed file.  The two listings show the
    first [per_page] notes, the newest first; a note created gets the
    fresh identifier; an update or a deletion of a note that is not held
    is answered with 404. *)
Definition keeping_server (per_page : nat) : Remote store :=
  mkRemote store
    (fun w => (w, (200, "feature")))
    (fun w => (w, (200, (no_refs, []))))
    (fun w => (w, (200, map (fun n => mkDiscussion (Py.str_of_int (id n)) [n])
                            (firstn per_page (held w)))))
    (fun w => (w, (200, firstn per_page (held w))))
    (fun _ _ w => (w, (404, "")))
    (fun text _ _ _ w => (added_note text w, 201))
    (fun text w => (added_note text w, (201, [("id", VInt (fresh w))])))
    (fun target text w =>
       match target with
       | VInt z =>
           if holds z w
           then (mkStore (map (rewritten z text) (held w)) (fresh w), 200)
           else (w, 404)
       | _ => (w, 404)
       end)
    (fun target w =>
       if holds target w
       then (mkStore (filter (fun n => negb (id n =? target)) (held w))
                     (fresh w), 204)
       else (w, 404))
    (fun _ w => (w, "[]")).

(** The number of notes taken for the summary. *)
Definition summaries (w : store) : nat :=
  List.length (filter is_summary_note (held w)).

(** [count] remarks of people, numbered from 2, the newest first, above
    the summary an earlier pass wrote as note 1. *)
Definition remarks (count : nat) : list note :=
  map (fun i => mkNote (Z.of_nat i) "Looks good to me." None)
      (rev (seq 2 count)).

Definition discussed (count : nat) : store :=
  mkStore (remarks count ++ [mkNote 1 (summary_text 3 2 0) None])
          (Z.of_nat count + 2).

(** A pass over the merge request held by [w]. *)
Definition pass_over (w : store) : result unit * io store :=
  main (fun _ => "") (fun _ => Ok (VList [])) store (keeping_server PER_PAGE)
       "" "" "" (mkIo w []).

(** * Properties *)

(** ** The line mapper never raises *)

Lemma item_raises {A} (l : list A) (i : nat) (e : exn) :
  Py.item l i = Raise e -> e = IndexError.
Proof.
  unfold Py.item. destruct (nth_error l i); congruence.
Qed.

Lemma int_unsigned_raises (s : string) (e : exn) :
  Py.int_unsigned s = Raise e -> e = ValueError.
Proof.
  unfold Py.int_unsigned.
  destruct s as [|c s]; [congruence|].
  destruct (Ascii.eqb c Py.underscore); [congruence|].
  destruct (Py.int_scan false (String c s)) as [[ds rest]|]; [|congruence].
  destruct (negb (Py.all_int_space rest)); [congruence|].
  destruct ((0 <? Py.int_max_str_digits)%nat
            && (Py.int_max_str_digits <? String.length ds)%nat);
    [congruence|].
  destruct ds; [congruence|].
  destruct (NilEmpty.uint_of_string _); congruence.
Qed.

Lemma int_raises (s : string) (e : exn) :
  Py.int s = Raise e -> e = ValueError.
Proof.
  unfold Py.int.
  destruct (Py.int_lstrip s) as [|c s']; [apply int_unsigned_raises|].
  destruct (Ascii.eqb c "+"); [apply int_unsigned_raises|].
  destruct (Ascii.eqb c "-"); [|apply int_unsigned_raises].
  destruct (Py.int_unsigned s') eqn:U; simpl; [congruence|].
  intros [= <-]. eapply int_unsigned_raises; eassumption.
Qed.

Lemma hunk_start_raises (line : string) (e : exn) :
  hunk_start line = Raise e -> e = IndexError \/ e = ValueError.
Proof.
  unfold hunk_start.
  destruct (Py.item (Py.split line "+") 1) as [after|e1] eqn:E1; simpl.
  2:{ intros [= <-]. left. eapply item_raises; eassumption. }
  destruct (Py.item (Py.split after "@@") 0) as [before|e2] eqn:E2; simpl.
  2:{ intros [= <-]. left. eapply item_raises; eassumption. }
  destruct (Py.contains "," (Py.strip before)).
  - destruct (Py.item (Py.split (Py.strip before) ",") 0) as [start|e3] eqn:E3;
      simpl.
    + intros H. right. eapply int_raises; eassumption.
    + intros [= <-]. left. eapply item_raises; eassumption.
  - intros H. right. eapply int_raises; eassumption.
Qed.

Lemma parse_line_total (st : cursor) (line : string) :
  exists st', parse_line st line = Ok st'.
Proof.
  unfold parse_line.
  destruct (Py.startswith line "@@").
  - destruct (hunk_start line) as [n|e] eqn:E; [eauto|].
    destruct (hunk_start_raises _ _ E) as [-> | ->]; eauto.
  - destruct (Py.startswith line "+" && negb (Py.startswith line "+++"));
      [eauto|].
    destruct (Py.startswith line "-" && negb (Py.startswith line "---"));
      [eauto|].
    destruct (negb (Py.startswith line "\")); eauto.
Qed.

Lemma parse_lines_total (lines : list string) :
  forall st, exists st', parse_lines st lines = Ok st'.
Proof.
  induction lines as [|line rest IH]; intros st; simpl; [eauto|].
  destruct (parse_line_total st line) as [st1 ->]. simpl. apply IH.
Qed.

(** C10.  [parse_diff_for_new_lines] returns a list for every input string:
    the only failures of the hunk header parsing, IndexError and
    ValueError, are the two the loop catches. *)
Theorem parse_diff_for_new_lines_total (diff : string) :
  exists lines, parse_diff_for_new_lines diff = Ok lines.
Proof.
  unfold parse_diff_for_new_lines.
  destruct (parse_lines_total (Py.split diff Py.nl) (mkCursor [] 0))
    as [st ->].
  simpl. eauto.
Qed.

(** ** The worked example *)

(** C2.  On the diff of the example the result is [11; 12]: the header
    sets the cursor to 10, the context line moves it to 11, the first added
    line records 11 and moves it to 12, the removed line changes nothing,
    and the second added line records 12. *)
Theorem parse_example_diff :
  parse_diff_for_new_lines example_diff = Ok [11; 12]
  /\ Py.split example_diff Py.nl
     = ["@@ -1,2 +10,3 @@"; " context"; "+added1"; "-removed"; "+added2"; ""]
  /\ parse_line (mkCursor [] 0) "@@ -1,2 +10,3 @@" = Ok (mkCursor [] 10)
  /\ parse_line (mkCursor [] 10) " context" = Ok (mkCursor [] 11)
  /\ parse_line (mkCursor [] 11) "+added1" = Ok (mkCursor [11] 12)
  /\ parse_line (mkCursor [11] 12) "-removed" = Ok (mkCursor [11] 12)
  /\ parse_line (mkCursor [11] 12) "+added2" = Ok (mkCursor [11; 12] 13).
Proof.
  repeat split; vm_compute; reflexivity.
Qed.

(** ** Malformed hunk headers *)

Lemma parse_lines_app (pre post : list string) :
  forall st,
    parse_lines st (pre ++ post)
    = (st' <- parse_lines st pre ;; parse_lines st' post).
Proof.
  induction pre as [|l pre IH]; intros st; simpl; [reflexivity|].
  destruct (parse_line st l) as [st1|e]; simpl; [apply IH | reflexivity].
Qed.

Lemma malformed_header_kept (st : cursor) (line : string) (e : exn) :
  Py.startswith line "@@" = true ->
  hunk_start line = Raise e ->
  parse_line st line = Ok st.
Proof.
  intros Hat He. unfold parse_line. rewrite Hat, He.
  destruct (hunk_start_raises _ _ He) as [-> | ->]; reflexivity.
Qed.

(** C3, as the specification has it, fails: after the malformed header
    [@@ garbage @@], with no valid header anywhere, the added line is
    recorded all the same. *)
Lemma malformed_header_counterexample :
  Py.startswith "@@ garbage @@" "@@" = true
  /\ hunk_start "@@ garbage @@" = Raise IndexError
  /\ parse_diff_for_new_lines ("@@ garbage @@" ++ Py.nl ++ "+added")
     = Ok [0]
  /\ parse_diff_for_new_lines ("@@ garbage @@" ++ Py.nl ++ "+added")
     <> Ok [].
Proof.
  repeat split; try (vm_compute; reflexivity).
  vm_compute. discriminate.
Qed.

(** ** Added lines before the first valid header *)

Lemma parse_line_extends (st st' : cursor) (line : string) :
  parse_line st line = Ok st' ->
  exists more, new_lines st' = new_lines st ++ more.
Proof.
  unfold parse_line.
  destruct (Py.startswith line "@@").
  - destruct (hunk_start line) as [n|[]]; intros [= <-]; exists [];
      simpl; now rewrite app_nil_r.
  - destruct (Py.startswith line "+" && negb (Py.startswith line "+++")).
    { intros [= <-]. simpl. eauto. }
    destruct (Py.startswith line "-" && negb (Py.startswith line "---")).
    { intros [= <-]. exists []. now rewrite app_nil_r. }
    destruct (negb (Py.startswith line "\")); intros [= <-]; exists [];
      simpl; now rewrite app_nil_r.
Qed.

Lemma parse_lines_extends (lines : list string) :
  forall st st',
    parse_lines st lines = Ok st' ->
    exists more, new_lines st' = new_lines st ++ more.
Proof.
  induction lines as [|l rest IH]; intros st st'; simpl.
  - intros [= <-]. exists []. now rewrite app_nil_r.
  - destruct (parse_line st l) as [st1|e] eqn:E; simpl; [|discriminate].
    intros H. destruct (parse_line_extends _ _ _ E) as [m1 H1].
    destruct (IH _ _ H) as [m2 H2].
    exists (m1 ++ m2). now rewrite H2, H1, app_assoc.
Qed.

Lemma prefix_cons (a b : ascii) (s1 s2 : string) :
  prefix (String a s1) (String b s2) = Ascii.eqb a b && prefix s1 s2.
Proof.
  simpl. destruct (ascii_dec a b) as [->|Hne].
  - now rewrite Ascii.eqb_refl.
  - apply Ascii.eqb_neq in Hne. now rewrite Hne.
Qed.

Lemma startswith_char (line : string) (c : ascii) :
  Py.startswith line (String c "") = true ->
  exists rest, line = String c rest.
Proof.
  unfold Py.startswith. destruct line as [|b rest]; [discriminate|].
  rewrite prefix_cons. intros H. apply andb_prop in H as [H _].
  apply Ascii.eqb_eq in H. subst. eauto.
Qed.

Lemma is_added_not_header (line : string) :
  is_added line = true -> Py.startswith line "@@" = false.
Proof.
  unfold is_added. intros H. apply andb_prop in H as [H _].
  apply startswith_char in H as [rest ->].
  unfold Py.startswith. now rewrite prefix_cons.
Qed.

(** Lines that neither record nor set the cursor only move it. *)
Lemma parse_lines_before_header (pre : list string) :
  forall st,
    Forall (fun l => is_added l = false
                     /\ (Py.startswith l "@@" = true ->
                         exists e, hunk_start l = Raise e)) pre ->
    parse_lines st pre
    = Ok (mkCursor (new_lines st)
            (current_new_line st
             + Z.of_nat (List.length (filter advances pre)))).
Proof.
  induction pre as [|l pre IH]; intros st Hpre; simpl.
  - rewrite Z.add_0_r. now destruct st.
  - inversion Hpre as [|? ? [Hadd Hhdr] Hrest]; subst.
    unfold advances at 1. rewrite Hadd. fold (advances).
    unfold is_added in Hadd.
    destruct (Py.startswith l "@@") eqn:Hat.
    + destruct (Hhdr eq_refl) as [e He].
      rewrite (malformed_header_kept st l e Hat He). simpl.
      now apply IH.
    + unfold parse_line. rewrite Hat, Hadd. unfold is_removed.
      destruct (Py.startswith l "-" && negb (Py.startswith l "---")); simpl.
      * now apply IH.
      * destruct (Py.startswith l "\"); simpl.
        -- now apply IH.
        -- rewrite IH by assumption. simpl. f_equal. f_equal. lia.
Qed.

(** C9, as stated, fails: with a context line first and no hunk header at
    all, the first added line is recorded as 1, not as 0. *)
Lemma added_before_header_counterexample :
  Forall (fun l => Py.startswith l "@@" = false) (Py.split ("context" ++ Py.nl ++ "+added") Py.nl)
  /\ parse_diff_for_new_lines ("context" ++ Py.nl ++ "+added") = Ok [1]
  /\ ~ In 0 [1].
Proof.
  split; [|split].
  - vm_compute. repeat constructor.
  - vm_compute. reflexivity.
  - simpl. intros [H|[]]. discriminate.
Qed.

(** ** The file selector *)

Lemma ignored_existsb (path : string) (patterns : list string) :
  ignored path patterns = existsb (pattern_hits path) patterns.
Proof.
  induction patterns as [|p rest IH]; simpl; [reflexivity|].
  destruct (pattern_hits path p); simpl; auto.
Qed.

(** A pattern that hits excludes the file whatever its extension; with no
    hit the answer is whether the lower-cased suffix is one of the
    configured extensions, taken as they are written. *)
Lemma should_review_file_spec (cfg : config) (path : string) :
  (existsb (pattern_hits path) (IGNORE_PATTERNS cfg) = true ->
   should_review_file cfg path = false)
  /\ (existsb (pattern_hits path) (IGNORE_PATTERNS cfg) = false ->
      should_review_file cfg path
      = existsb (String.eqb (Py.lower (path_suffix path)))
                (REVIEW_EXTENSIONS cfg)).
Proof.
  unfold should_review_file. rewrite ignored_existsb.
  split; intros ->; reflexivity.
Qed.

Lemma node_modules_excluded (path : string) :
  Py.contains "node_modules" path = true ->
  should_review_file default_config path = false.
Proof.
  intros H. apply should_review_file_spec.
  apply existsb_exists. exists "node_modules". split.
  - simpl. tauto.
  - exact H.
Qed.

Lemma default_examples :
  should_review_file default_config "src/app.go" = true
  /\ should_review_file default_config "vendor/pkg/app.go" = false
  /\ should_review_file default_config "src/App.GO" = true.
Proof.
  repeat split; vm_compute; reflexivity.
Qed.

(** C7 at REVIEW_EXTENSIONS=".R" and the path [analysis.R]: no ignore
    pattern hits, the suffix [.R] is in the configured set as written, and
    the file is refused all the same, because only the suffix is
    lower-cased before the look-up. *)
Theorem configured_upper_case_extension_refused :
  In ".R" (REVIEW_EXTENSIONS (init_config "" ".R"))
  /\ path_suffix "analysis.R" = ".R"
  /\ existsb (pattern_hits "analysis.R")
             (IGNORE_PATTERNS (init_config "" ".R")) = false
  /\ should_review_file (init_config "" ".R") "analysis.R" = false.
Proof.
  repeat split; try (vm_compute; reflexivity).
  vm_compute. tauto.
Qed.

(** ** The comment formatter *)

Lemma string_app_assoc (a b c : string) :
  ((a ++ b) ++ c = a ++ (b ++ c))%string.
Proof.
  induction a as [|x a IH]; simpl; [reflexivity | now rewrite IH].
Qed.

(** ** The review pass: what each step adds to the trace *)

Section Traces.

Context {W : Type}.

Lemma emits_weaken {A} (m : M W A) (P Q : result A -> list event -> Prop) :
  emits m P -> (forall r evs, P r evs -> Q r evs) -> emits m Q.
Proof.
  intros H HPQ s. destruct (H s) as (evs & E & HP). eauto.
Qed.

Lemma emits_ret {A} (a : A) :
  emits (ret (W := W) a) (fun r evs => r = Ok a /\ evs = []).
Proof.
  intros s. exists []. simpl. now rewrite app_nil_r.
Qed.

Lemma emits_lift {A} (x : result A) :
  emits (lift (W := W) x) (fun r evs => r = x /\ evs = []).
Proof.
  intros s. exists []. simpl. now rewrite app_nil_r.
Qed.

Lemma emits_throw {A} (e : exn) :
  emits (throw (W := W) (A := A) e) (fun r evs => r = Raise e /\ evs = []).
Proof.
  intros s. exists []. simpl. now rewrite app_nil_r.
Qed.

Lemma emits_request {A} (op : W -> W * A) (ev : A -> event) :
  emits (request op ev) (fun r evs => exists a, r = Ok a /\ evs = [ev a]).
Proof.
  intros s. unfold request. destruct (op (world s)) as [w a]. simpl.
  eauto.
Qed.

Lemma emits_bind {A B} (m : M W A) (k : A -> M W B)
    (P : result A -> list event -> Prop)
    (Q : A -> result B -> list event -> Prop) :
  emits m P ->
  (forall a, emits (k a) (Q a)) ->
  emits (bind m k)
    (fun r evs =>
       (exists e, r = Raise e /\ P (Raise e) evs)
       \/ (exists a x y, P (Ok a) x /\ Q a r y /\ evs = x ++ y)).
Proof.
  intros Hm Hk s. unfold bind.
  destruct (Hm s) as (x & Ex & HP).
  destruct (m s) as [[a|e] s1]; simpl in *.
  - destruct (Hk a s1) as (y & Ey & HQ).
    exists (x ++ y). split.
    + now rewrite Ey, Ex, app_assoc.
    + right. exists a, x, y. auto.
  - exists x. split; [assumption|]. left. eauto.
Qed.

Lemma emits_raise_for_status (status : Z) :
  emits (raise_for_status (W := W) status) (fun _ evs => evs = []).
Proof.
  unfold raise_for_status.
  destruct ((400 <=? status) && (status <? 600)).
  - eapply emits_weaken; [apply emits_throw|]. now intros r evs [_ ->].
  - eapply emits_weaken; [apply emits_ret|]. now intros r evs [_ ->].
Qed.

End Traces.

Section PassTraces.

Variable repr : value -> string.
Variable json_loads : string -> result value.
Variable W : Type.
Variable gitlab : Remote W.

Lemma only_bind {A B} (m : M W A) (k : A -> M W B) (P : event -> Prop) :
  emits m (only P) -> (forall a, emits (k a) (only P)) ->
  emits (bind m k) (only P).
Proof.
  intros Hm Hk.
  eapply emits_weaken;
    [apply (emits_bind m k (only P) (fun _ => only P)); assumption|].
  unfold only. intros r evs [(e & _ & H) | (a & x & y & Hx & Hy & ->)].
  - exact H.
  - apply Forall_app. auto.
Qed.

(** The same when the continuation may rely on a fact [R] about the
    value it receives. *)
Lemma only_bind_with {A B} (m : M W A) (k : A -> M W B) (P : event -> Prop)
    (R : A -> Prop) :
  emits m (fun r evs => Forall P evs /\ forall a, r = Ok a -> R a) ->
  (forall a, R a -> emits (k a) (only P)) ->
  emits (bind m k) (only P).
Proof.
  intros Hm Hk s. unfold bind.
  destruct (Hm s) as (x & Ex & HP & HR).
  destruct (m s) as [[a|e] s1]; simpl in *.
  - destruct (Hk a (HR a eq_refl) s1) as (y & Ey & HQ).
    exists (x ++ y). split.
    + now rewrite Ey, Ex, app_assoc.
    + apply Forall_app. auto.
  - exists x. auto.
Qed.

Lemma only_request {A} (op : W -> W * A) (ev : A -> event)
    (P : event -> Prop) :
  (forall a, P (ev a)) -> emits (request op ev) (only P).
Proof.
  intros H. eapply emits_weaken; [apply emits_request|].
  intros r evs (a & _ & ->). repeat constructor. apply H.
Qed.

Lemma only_silent {A} (m : M W A) (P : event -> Prop) :
  emits m (fun _ evs => evs = []) -> emits m (only P).
Proof.
  intros H. eapply emits_weaken; [exact H|]. intros r evs ->. constructor.
Qed.

Lemma only_ret {A} (a : A) (P : event -> Prop) :
  emits (ret (W := W) a) (only P).
Proof.
  apply only_silent. eapply emits_weaken; [apply emits_ret|].
  now intros r evs [_ ->].
Qed.

Lemma only_lift {A} (x : result A) (P : event -> Prop) :
  emits (lift (W := W) x) (only P).
Proof.
  apply only_silent. eapply emits_weaken; [apply emits_lift|].
  now intros r evs [_ ->].
Qed.

Lemma only_raise_for_status (status : Z) (P : event -> Prop) :
  emits (raise_for_status (W := W) status) (only P).
Proof.
  apply only_silent, emits_raise_for_status.
Qed.

Create HintDb pass.
#[local] Hint Resolve only_ret only_lift only_raise_for_status : pass.

Lemma get_mr_info_only (P : event -> Prop) :
  (forall st, P (GetInfo st)) -> emits (get_mr_info W gitlab) (only P).
Proof.
  intros H. unfold get_mr_info.
  apply only_bind; [apply only_request; intros; apply H|].
  intros r. apply only_bind; auto with pass.
Qed.

Lemma get_mr_changes_only (P : event -> Prop) :
  (forall st, P (GetChanges st)) -> emits (get_mr_changes W gitlab) (only P).
Proof.
  intros H. unfold get_mr_changes.
  apply only_bind; [apply only_request; intros; apply H|].
  intros r. apply only_bind; auto with pass.
Qed.

Lemma get_mr_discussions_only (P : event -> Prop) :
  (forall st l, P (GetDiscussions st l)) ->
  emits (get_mr_discussions W gitlab) (only P).
Proof.
  intros H. unfold get_mr_discussions.
  apply only_bind; [apply only_request; intros; apply H|].
  intros r. apply only_bind; auto with pass.
Qed.

Lemma get_file_content_only (P : event -> Prop) (path ref : string) :
  (forall st, P (GetFile path ref st)) ->
  emits (get_file_content W gitlab path ref) (only P).
Proof.
  intros H. unfold get_file_content.
  apply only_bind; [apply only_request; intros; apply H|].
  intros r. destruct (fst r =? 404); [auto with pass|].
  apply only_bind; auto with pass.
Qed.

Lemma update_mr_note_only (P : event -> Prop) (target : value)
    (text : string) :
  (forall st, P (PutNote target text st)) ->
  emits (update_mr_note W gitlab target text) (only P).
Proof.
  intros H. unfold update_mr_note.
  apply only_bind; [apply only_request; intros; apply H|].
  intros r. auto with pass.
Qed.

Lemma delete_existing_only (P : event -> Prop) (existing : list ai_comment) :
  (forall id st, P (DeleteNote id st)) ->
  forall n, emits (delete_existing W gitlab existing n) (only P).
Proof.
  intros H. induction existing as [|c rest IH]; intros n; simpl.
  - auto with pass.
  - apply only_bind; [|intros _; apply IH].
    unfold delete_mr_note. apply only_request. intros; apply H.
Qed.

Lemma ensure_summary_only (P : event -> Prop) :
  (forall st l, P (GetNotes st l)) ->
  (forall st, P (PostNote PLACEHOLDER st)) ->
  emits (ensure_summary W gitlab) (only P).
Proof.
  intros Hg Hp. unfold ensure_summary.
  apply only_bind.
  { unfold get_mr_notes.
    apply only_bind; [apply only_request; intros; apply Hg|].
    intros r. apply only_bind; auto with pass. }
  intros ns.
  destruct (negb (truthy (value_of_id (find_existing_summary_note ns))));
    [|auto with pass].
  apply only_bind; [|auto with pass].
  unfold create_mr_note.
  apply only_bind; [apply only_request; intros; apply Hp|].
  intros r. apply only_bind; auto with pass.
Qed.

Lemma only_bind_lift {A B} (x : result A) (k : A -> M W B)
    (P : event -> Prop) :
  (forall a, x = Ok a -> emits (k a) (only P)) ->
  emits (bind (lift x) k) (only P).
Proof.
  intros H. apply (only_bind_with _ _ P (fun a => x = Ok a)); [|exact H].
  intros s. exists []. simpl. rewrite app_nil_r. auto.
Qed.

Lemma publish_only (P : event -> Prop) (path : string) (refs : diff_refs)
    (comments : list value) :
  (forall c text st,
      In c comments ->
      format_comment repr (dict_of c) = Ok text ->
      P (PostDiscussion text path (get (dict_of c) "line") st)) ->
  forall n, emits (publish repr W gitlab path refs comments n) (only P).
Proof.
  induction comments as [|c rest IH]; intros H n; simpl.
  - auto with pass.
  - apply only_bind_lift. intros text Htext. apply only_bind.
    + unfold create_mr_discussion. apply only_request.
      intros st. apply H; [now left | exact Htext].
    + intros _. apply IH. intros c' text' st' Hin. apply H. now right.
Qed.

Lemma decode_comments_valid (changed_lines : list Z) (text : string)
    (kept : list value) :
  decode_comments json_loads changed_lines text = Ok kept ->
  Forall (fun c => is_valid_comment changed_lines c = true) kept.
Proof.
  unfold decode_comments.
  destruct (strip_fence text) as [t|e]; simpl; [|discriminate].
  destruct (json_loads t) as [v|[]]; try discriminate.
  - destruct (iterate v) as [els|e]; simpl; [|discriminate].
    intros [= <-]. apply Forall_forall. intros c Hc.
    now apply filter_In in Hc.
  - intros [= <-]. constructor.
Qed.

Lemma valid_comment_line (changed_lines : list Z) (c : value) :
  is_valid_comment changed_lines c = true ->
  in_ints (get (dict_of c) "line") changed_lines = true
  /\ truthy (get (dict_of c) "message") = true.
Proof.
  destruct c; simpl; try discriminate. apply andb_prop.
Qed.

(** What one change adds: reads of the file, the question to the
    advisory service, and comments on lines that [parse_diff_for_new_lines]
    returned for its diff. *)
Lemma review_change_only (P : event -> Prop) (cfg : config)
    (rules branch : string) (refs : diff_refs) (counters : Z * Z)
    (c : change) :
  (forall path ref st, P (GetFile path ref st)) ->
  (forall about, P (Chat about)) ->
  (forall text st lines kept,
      parse_diff_for_new_lines (diff c) = Ok lines ->
      is_valid_comment lines kept = true ->
      format_comment repr (dict_of kept) = Ok text ->
      P (PostDiscussion text (change_new_path c)
           (get (dict_of kept) "line") st)) ->
  emits (review_change repr json_loads W gitlab cfg rules branch refs
           counters c) (only P).
Proof.
  intros Hf Hc Hp. unfold review_change. destruct counters as [total files].
  destruct (negb (should_review_file cfg (change_new_path c)));
    [auto with pass|].
  destruct (deleted_file c); [auto with pass|].
  apply only_bind_lift. intros lines Hlines.
  destruct lines as [|z lines]; [auto with pass|].
  apply only_bind; [apply get_file_content_only; intros; apply Hf|].
  intros [content|]; [|auto with pass].
  destruct content as [|x content]; [auto with pass|].
  apply (only_bind_with _ _ P
           (Forall (fun k => is_valid_comment (z :: lines) k = true))).
  { unfold analyze_with_ai.
    intros s. unfold bind, request, lift.
    destruct (chat gitlab _ (world s)) as [w reply]. simpl.
    eexists. split; [reflexivity|]. split.
    - repeat constructor. apply Hc.
    - intros kept Hk. eapply decode_comments_valid. exact Hk. }
  intros kept Hkept.
  apply only_bind; [|auto with pass].
  apply publish_only. intros k text st Hin Htext.
  apply (Hp text st (z :: lines) k Hlines); [|exact Htext].
  rewrite Forall_forall in Hkept. now apply Hkept.
Qed.

Lemma review_changes_only (P : event -> Prop) (cfg : config)
    (rules branch : string) (refs : diff_refs) (changes : list change) :
  (forall path ref st, P (GetFile path ref st)) ->
  (forall about, P (Chat about)) ->
  (forall c text st lines kept,
      In c changes ->
      parse_diff_for_new_lines (diff c) = Ok lines ->
      is_valid_comment lines kept = true ->
      format_comment repr (dict_of kept) = Ok text ->
      P (PostDiscussion text (change_new_path c)
           (get (dict_of kept) "line") st)) ->
  forall counters,
    emits (review_changes repr json_loads W gitlab cfg rules branch refs
             changes counters) (only P).
Proof.
  intros Hf Hc. induction changes as [|c rest IH]; intros Hp counters; simpl.
  - auto with pass.
  - apply only_bind.
    + apply review_change_only; auto. intros. eapply Hp; eauto. now left.
    + intros counters'. apply IH. intros. eapply Hp; eauto. now right.
Qed.

Lemma in_ints_int (z : Z) (l : list Z) :
  in_ints (VInt z) l = true <-> In z l.
Proof.
  unfold in_ints. rewrite existsb_exists. simpl. split.
  - intros (y & Hy & E). apply Z.eqb_eq in E. now subst.
  - intros H. exists z. split; [assumption | apply Z.eqb_refl].
Qed.

(** C6.  Of the findings the advisory service returns, one whose line is
    not among the lines of the diff (for an integer line: not a member of
    the list), or whose message is empty or otherwise false, is left out
    of the result of [analyze_with_ai] without any error, and every
    comment the loop over the changes publishes is the formatting of a
    finding that was kept, at a line of the diff of its file. *)
Theorem invalid_findings_never_published :
  (forall z l, in_ints (VInt z) l = true <-> In z l)
  /\ (forall changed_lines text inner findings,
        strip_fence text = Ok inner ->
        json_loads inner = Ok (VList findings) ->
        decode_comments json_loads changed_lines text
        = Ok (filter (is_valid_comment changed_lines) findings)
        /\ forall d,
            in_ints (get d "line") changed_lines = false
            \/ truthy (get d "message") = false ->
            ~ In (VDict d)
                 (filter (is_valid_comment changed_lines) findings))
  /\ (forall cfg rules branch refs changes counters s,
        exists evs,
          trace (snd (review_changes repr json_loads W gitlab cfg rules
                        branch refs changes counters s))
          = trace s ++ evs
          /\ forall text path at_line st,
              In (PostDiscussion text path at_line st) evs ->
              exists c lines kept,
                In c changes /\ path = change_new_path c
                /\ parse_diff_for_new_lines (diff c) = Ok lines
                /\ is_valid_comment lines kept = true
                /\ at_line = get (dict_of kept) "line"
                /\ in_ints at_line lines = true
                /\ truthy (get (dict_of kept) "message") = true
                /\ format_comment repr (dict_of kept) = Ok text).
Proof.
  split; [exact in_ints_int|]. split.
  - intros changed_lines text inner findings Hs Hj. split.
    + unfold decode_comments. rewrite Hs. simpl. rewrite Hj. reflexivity.
    + intros d Hbad Hin. apply filter_In in Hin as [_ Hv].
      simpl in Hv. apply andb_prop in Hv as [H1 H2].
      destruct Hbad; congruence.
  - intros cfg rules branch refs changes counters s.
    destruct (review_changes_only
                (fun e => forall text path at_line st,
                     e = PostDiscussion text path at_line st ->
                     exists c lines kept,
                       In c changes /\ path = change_new_path c
                       /\ parse_diff_for_new_lines (diff c) = Ok lines
                       /\ is_valid_comment lines kept = true
                       /\ at_line = get (dict_of kept) "line"
                       /\ in_ints at_line lines = true
                       /\ truthy (get (dict_of kept) "message") = true
                       /\ format_comment repr (dict_of kept) = Ok text)
                cfg rules branch refs changes) with (counters := counters)
                (s := s)
      as (evs & E & H).
    + intros; discriminate.
    + intros; discriminate.
    + intros c text st lines kept Hc Hl Hv Hf text' path' l' st' [= <- <- <- <-].
      destruct (valid_comment_line _ _ Hv) as [V1 V2].
      exists c, lines, kept. repeat split; auto.
    + exists evs. split; [exact E|].
      intros text path at_line st Hin.
      unfold only in H. rewrite Forall_forall in H.
      exact (H _ Hin text path at_line st eq_refl).
Qed.

(** *** The summary note *)

Lemma find_none (ns : list note) :
  find_existing_summary_note ns = None
  <-> Forall (fun n => is_summary_note n = false) ns.
Proof.
  induction ns as [|n ns IH]; simpl.
  - split; [constructor | reflexivity].
  - fold (is_summary_note n).
    destruct (is_summary_note n) eqn:E.
    + split; [discriminate|]. intros H. inversion H; congruence.
    + rewrite IH. split.
      * intros H. now constructor.
      * intros H. now inversion H.
Qed.

Lemma find_some (ns : list note) (i : Z) :
  find_existing_summary_note ns = Some i ->
  exists pre n post,
    ns = pre ++ n :: post
    /\ Forall (fun n => is_summary_note n = false) pre
    /\ is_summary_note n = true /\ i = id n.
Proof.
  induction ns as [|n ns IH]; simpl; [discriminate|].
  fold (is_summary_note n).
  destruct (is_summary_note n) eqn:E.
  - intros [= <-]. exists [], n, ns. auto.
  - intros H. destruct (IH H) as (pre & m & post & -> & Hpre & Hm & Hi).
    exists (n :: pre), m, post. auto.
Qed.

Lemma find_present (ns : list note) :
  Exists (fun n => is_summary_note n = true) ns ->
  Forall (fun n => id n <> 0) ns ->
  exists i, find_existing_summary_note ns = Some i /\ i <> 0.
Proof.
  intros Hex Hid.
  destruct (find_existing_summary_note ns) as [i|] eqn:E.
  - exists i. split; [reflexivity|].
    destruct (find_some _ _ E) as (pre & n & post & -> & _ & _ & ->).
    rewrite Forall_forall in Hid. apply Hid, in_elt.
  - apply find_none in E. apply Exists_exists in Hex as (n & Hin & Hn).
    rewrite Forall_forall in E. specialize (E n Hin). congruence.
Qed.

Lemma ensure_summary_found (s : io W) (w1 : W) (st : Z) (ns : list note)
    (i : Z) :
  http_get_notes gitlab (world s) = (w1, (st, ns)) ->
  (400 <=? st) && (st <? 600) = false ->
  find_existing_summary_note ns = Some i ->
  i <> 0 ->
  ensure_summary W gitlab s
  = (Ok (VInt i), mkIo w1 (trace s ++ [GetNotes st ns])).
Proof.
  intros Hget Hst Hfind Hi.
  unfold ensure_summary, get_mr_notes, bind, request, raise_for_status.
  rewrite Hget. simpl. rewrite Hst. simpl. rewrite Hfind. simpl.
  apply Z.eqb_neq in Hi. rewrite Hi. reflexivity.
Qed.

Lemma filter_none {A} (f : A -> bool) (l : list A) :
  Forall (fun x => f x = false) l -> filter f l = [].
Proof.
  induction 1 as [|x l Hx _ IH]; simpl; [reflexivity|]. now rewrite Hx.
Qed.

Lemma few_posts_left {A B} (m : M W A) (k : A -> M W B) :
  emits m (only no_post) -> (forall a, emits (k a) (few_posts gitlab)) ->
  emits (bind m k) (few_posts gitlab).
Proof.
  intros Hm Hk.
  eapply emits_weaken;
    [apply (emits_bind m k (only no_post) (fun _ => few_posts gitlab));
     assumption|].
  unfold few_posts, only.
  intros r evs [(e & _ & H) | (a & x & y & Hx & Hy & ->)].
  - rewrite (filter_none _ _ H). simpl. split; [lia | reflexivity].
  - rewrite filter_app, (filter_none _ _ Hx). exact Hy.
Qed.

Lemma few_posts_right {A B} (m : M W A) (k : A -> M W B) :
  emits m (few_posts gitlab) -> (forall a, emits (k a) (only no_post)) ->
  emits (bind m k) (few_posts gitlab).
Proof.
  intros Hm Hk.
  eapply emits_weaken;
    [apply (emits_bind m k (few_posts gitlab) (fun _ => only no_post));
     assumption|].
  unfold few_posts, only.
  intros r evs [(e & _ & H) | (a & x & y & Hx & Hy & ->)].
  - exact H.
  - rewrite filter_app, (filter_none _ _ Hy), app_nil_r. exact Hx.
Qed.

Lemma ensure_summary_few_posts :
  emits (ensure_summary W gitlab) (few_posts gitlab).
Proof.
  intros s. unfold few_posts.
  unfold ensure_summary, get_mr_notes, create_mr_note, bind, request,
    raise_for_status.
  destruct (http_get_notes gitlab (world s)) as [w1 [st ns]] eqn:Hget.
  simpl.
  destruct ((400 <=? st) && (st <? 600)) eqn:Hst; simpl.
  { eexists. split; [reflexivity|]. simpl. split; [lia | reflexivity]. }
  destruct (negb (truthy (value_of_id (find_existing_summary_note ns))))
    eqn:Hfound; simpl.
  2:{ eexists. split; [reflexivity|]. simpl. split; [lia | reflexivity]. }
  assert (Hno : summary_kept gitlab -> False).
  { intros Hk. destruct (Hk (world s)) as [Hex Hid].
    rewrite Hget in Hex, Hid. simpl in Hex, Hid.
    destruct (find_present ns Hex Hid) as (i & Hi & Hne).
    rewrite Hi in Hfound. simpl in Hfound.
    apply Z.eqb_neq in Hne. rewrite Hne in Hfound. discriminate. }
  destruct (http_post_note gitlab PLACEHOLDER w1) as [w2 [st2 created]].
  simpl.
  destruct ((400 <=? st2) && (st2 <? 600)); simpl;
    (eexists; split; [rewrite <- app_assoc; reflexivity|]; simpl;
     split; [lia | intros Hk; destruct (Hno Hk)]).
Qed.

(** The search over the notes listed returns the identifier of the first
    note whose body holds the current or the legacy marker, and nothing
    when no listed note does; when it finds one, with the non-zero
    identifier GitLab gives a note, the pass takes that identifier and
    asks for no new note; a pass creates at most one note, and none when
    every listing shows a summary note. *)
Lemma summary_searched_in_listing :
  (forall ns,
      find_existing_summary_note ns = None
      <-> Forall (fun n => Py.contains "## RejPAL" (body n)
                           || Py.contains "## 🤖 AI Code Review" (body n)
                           = false) ns)
  /\ (forall ns i,
        find_existing_summary_note ns = Some i ->
        exists pre n post,
          ns = pre ++ n :: post
          /\ Forall (fun n => is_summary_note n = false) pre
          /\ is_summary_note n = true /\ i = id n)
  /\ (forall s w1 st ns i,
        http_get_notes gitlab (world s) = (w1, (st, ns)) ->
        (400 <=? st) && (st <? 600) = false ->
        find_existing_summary_note ns = Some i ->
        i <> 0 ->
        ensure_summary W gitlab s
        = (Ok (VInt i), mkIo w1 (trace s ++ [GetNotes st ns])))
  /\ (forall ignore_extra extensions_extra rules s,
        exists evs,
          trace (snd (main repr json_loads W gitlab ignore_extra
                        extensions_extra rules s))
          = trace s ++ evs
          /\ (List.length (filter is_post_note evs) <= 1)%nat
          /\ (summary_kept gitlab -> filter is_post_note evs = [])).
Proof.
  split; [exact find_none|]. split; [exact find_some|].
  split; [exact ensure_summary_found|].
  intros ignore_extra extensions_extra rules.
  assert (H : emits (main repr json_loads W gitlab ignore_extra
                       extensions_extra rules) (few_posts gitlab)).
  { unfold main.
    apply few_posts_left; [now apply get_mr_info_only|]. intros branch.
    apply few_posts_left; [now apply get_mr_changes_only|]. intros ch.
    apply few_posts_left; [now apply get_mr_discussions_only|]. intros ds.
    apply few_posts_left; [now apply delete_existing_only|]. intros dc.
    apply few_posts_right; [apply ensure_summary_few_posts|]. intros sid.
    apply only_bind.
    - apply review_changes_only; intros; reflexivity.
    - intros counters. now apply update_mr_note_only. }
  intros s. destruct (H s) as (evs & E & H1 & H2). eauto.
Qed.

(** *** The comments of earlier passes *)

Lemma delete_existing_counts (existing : list ai_comment) :
  forall n,
    emits (delete_existing W gitlab existing n)
      (fun r evs =>
         r = Ok (n + Z.of_nat (List.length existing))
         /\ Forall (fun e => is_delete_note e = true) evs
         /\ List.length evs = List.length existing).
Proof.
  induction existing as [|c rest IH]; intros n s.
  - exists []. simpl. rewrite app_nil_r, Z.add_0_r. auto.
  - simpl delete_existing. unfold bind, delete_mr_note, request.
    destruct (http_delete_note gitlab (note_id c) (world s)) as [w st].
    destruct (IH (n + 1) (mkIo w (trace s ++ [DeleteNote (note_id c) st])))
      as (evs & E & Hr & Hall & Hlen).
    exists (DeleteNote (note_id c) st :: evs). split; [|split; [|split]].
    + rewrite E. simpl. now rewrite <- app_assoc.
    + rewrite Hr. f_equal. simpl List.length. lia.
    + constructor; [reflexivity | exact Hall].
    + simpl. now rewrite Hlen.
Qed.

Lemma attempts_reported_left {A B} (m : M W A) (k : A -> M W B) :
  emits m (only no_delete_no_put) ->
  (forall a, emits (k a) attempts_reported) ->
  emits (bind m k) attempts_reported.
Proof.
  intros Hm Hk.
  eapply emits_weaken;
    [apply (emits_bind m k (only no_delete_no_put)
              (fun _ => attempts_reported)); assumption|].
  unfold attempts_reported, only.
  intros r evs [(e & _ & H) | (a & x & y & Hx & Hy & ->)];
    intros target text st Hin.
  - rewrite Forall_forall in H. destruct (H _ Hin) as [_ Hn].
    now destruct (Hn target text st).
  - rewrite filter_app.
    rewrite (filter_none is_delete_note x).
    2:{ eapply Forall_impl; [|exact Hx]. now intros e [He _]. }
    apply in_app_or in Hin as [Hin|Hin].
    + rewrite Forall_forall in Hx. destruct (Hx _ Hin) as [_ Hn].
      now destruct (Hn target text st).
    + exact (Hy target text st Hin).
Qed.

Lemma reports_tail (cfg : config) (rules branch : string)
    (refs : diff_refs) (changes : list change) (dc : Z) :
  emits
    (bind (ensure_summary W gitlab)
       (fun summary_note_id =>
          bind (review_changes repr json_loads W gitlab cfg rules branch
                  refs changes (0, 0))
            (fun counters =>
               update_mr_note W gitlab summary_note_id
                 (summary_text (snd counters) (fst counters) dc))))
    (only (reports dc)).
Proof.
  apply only_bind.
  { apply ensure_summary_only; intros; split; try reflexivity;
      intros; discriminate. }
  intros sid. apply only_bind.
  { apply review_changes_only; intros; split; try reflexivity;
      intros; discriminate. }
  intros counters. apply update_mr_note_only. intros st.
  split; [reflexivity|]. intros target text st' [= <- <- <-]. eauto.
Qed.

(** C5, as the code has it.  The loop over the comments of earlier
    passes makes one delete request for each and never raises, whatever
    the statuses that come back, so the pass goes on; the count it hands
    on is the number of requests made, and the summary a pass writes
    states that number as deleted, refused deletions included. *)
Theorem delete_attempts_counted :
  (forall existing n s,
      exists evs,
        trace (snd (delete_existing W gitlab existing n s)) = trace s ++ evs
        /\ fst (delete_existing W gitlab existing n s)
           = Ok (n + Z.of_nat (List.length existing))
        /\ Forall (fun e => is_delete_note e = true) evs
        /\ List.length evs = List.length existing)
  /\ (forall ignore_extra extensions_extra rules s,
        exists evs,
          trace (snd (main repr json_loads W gitlab ignore_extra
                        extensions_extra rules s))
          = trace s ++ evs
          /\ forall target text st,
              In (PutNote target text st) evs ->
              exists reviewed total,
                text = summary_text reviewed total
                         (Z.of_nat
                            (List.length (filter is_delete_note evs)))).
Proof.
  split.
  - intros existing n s.
    destruct (delete_existing_counts existing n s) as (evs & E & H1 & H2).
    exists evs. auto.
  - intros ignore_extra extensions_extra rules.
    assert (H : emits (main repr json_loads W gitlab ignore_extra
                         extensions_extra rules) attempts_reported).
    { unfold main.
      apply attempts_reported_left.
      { apply get_mr_info_only. split; [reflexivity | discriminate]. }
      intros branch. apply attempts_reported_left.
      { apply get_mr_changes_only. split; [reflexivity | discriminate]. }
      intros ch. apply attempts_reported_left.
      { apply get_mr_discussions_only.
        split; [reflexivity | discriminate]. }
      intros ds.
      eapply emits_weaken.
      { eapply (emits_bind _ _ _ (fun dc => only (reports dc))).
        - apply delete_existing_counts.
        - intros dc. apply reports_tail. }
      unfold attempts_reported, only.
      intros r evs [(e & _ & (Hr & _)) | (dc & x & y & Hx & Hy & ->)];
        [discriminate|].
      destruct Hx as (Hdc & Hdel & Hlen).
      injection Hdc as Hdc. subst dc.
      intros target text st Hin.
      rewrite Forall_forall in Hy.
      rewrite filter_app, length_app.
      rewrite (filter_none is_delete_note y).
      2:{ apply Forall_forall. intros e He. now destruct (Hy e He). }
      assert (Hx : filter is_delete_note x = x).
      { clear -Hdel. induction Hdel as [|e l He _ IH]; simpl;
          [reflexivity|]. now rewrite He, IH. }
      rewrite Hx, Hlen. simpl List.length. rewrite Nat.add_0_r.
      apply in_app_or in Hin as [Hin|Hin].
      - rewrite Forall_forall in Hdel. specialize (Hdel _ Hin).
        discriminate.
      - destruct (Hy _ Hin) as [_ Hp]. simpl in Hp.
        exact (Hp target text st eq_refl). }
    intros s. destruct (H s) as (evs & E & HP). eauto.
Qed.

End PassTraces.

(** C5, as the specification has it, fails: on a server that refuses the
    one delete request with 403 the pass completes, no deletion has been
    carried out, and the summary states one comment as deleted. *)
Lemma refused_delete_counted :
  main (fun _ => "") reply_of unit refusing_server "" "" "rules" start
  = (Ok tt,
     mkIo tt
       [ GetInfo 200; GetChanges 200;
         GetDiscussions 200
           [mkDiscussion "d1"
              [mkNote 7 "🔴 **RejPAL**: old remark"
                      (Some (mkPosition "a.py" 3))]];
         DeleteNote 7 403;
         GetNotes 200 [mkNote 5 "## RejPAL" None];
         PutNote (VInt 5) (summary_text 0 0 1) 200 ])
  /\ filter is_deleted
       (trace (snd (main (fun _ => "") reply_of unit refusing_server
                      "" "" "rules" start))) = []
  /\ summary_text 0 0 1 <> summary_text 0 0 0.
Proof.
  split; [vm_compute; reflexivity|].
  split; [vm_compute; reflexivity|].
  vm_compute. discriminate.
Qed.

(** On the server with one changed file, of the three findings returned
    only the one on line 11 is published. *)
Lemma one_file_run :
  filter (fun e => match e with PostDiscussion _ _ _ _ => true | _ => false end)
    (trace (snd (main (fun _ => "") reply_of unit one_file_server
                   "" "" "rules" start)))
  = [ PostDiscussion ("🟡 **RejPAL**: m") "src/app.py" (VInt 11) 201 ].
Proof.
  vm_compute. reflexivity.
Qed.

(** ** The line mapper on unified diffs *)

(** *** Strings *)

Lemma string_app_nil_r (s : string) : (s ++ "")%string = s.
Proof.
  induction s as [|a s IH]; simpl; [reflexivity | now rewrite IH].
Qed.

Lemma has_char_app (c : ascii) (a b : string) :
  has_char c (a ++ b) = has_char c a || has_char c b.
Proof.
  induction a as [|x a IH]; simpl; [reflexivity|].
  now rewrite IH, orb_assoc.
Qed.

Lemma all_chars_app (p : ascii -> bool) (a b : string) :
  all_chars p (a ++ b) = all_chars p a && all_chars p b.
Proof.
  induction a as [|x a IH]; simpl; [reflexivity|].
  now rewrite IH, andb_assoc.
Qed.

Lemma all_chars_impl (p q : ascii -> bool) (s : string) :
  (forall c, p c = true -> q c = true) ->
  all_chars p s = true -> all_chars q s = true.
Proof.
  intros Hpq. induction s as [|a s IH]; simpl; [reflexivity|].
  intros H. apply andb_prop in H as [Ha Hs].
  now rewrite (Hpq a Ha), IH.
Qed.

Lemma all_chars_no_char (p : ascii -> bool) (c : ascii) (s : string) :
  p c = false -> all_chars p s = true -> has_char c s = false.
Proof.
  intros Hc. induction s as [|a s IH]; simpl; [reflexivity|].
  intros H. apply andb_prop in H as [Ha Hs]. rewrite (IH Hs), orb_false_r.
  destruct (Ascii.eqb_spec a c) as [->|]; congruence.
Qed.

Lemma prefix_nil (s : string) : prefix "" s = true.
Proof.
  now destruct s.
Qed.

Lemma prefix_self_app (sep y : string) : prefix sep (sep ++ y) = true.
Proof.
  induction sep as [|a sep IH]; [apply prefix_nil|].
  cbn [append]. now rewrite prefix_cons, Ascii.eqb_refl, IH.
Qed.

Lemma split_from_skip (sep p cur y : string) :
  Py.split_from sep (String.length p) cur (p ++ y)
  = Py.split_from sep 0 cur y.
Proof.
  induction p as [|a p IH]; simpl; [reflexivity | exact IH].
Qed.

Lemma split_from_found (c0 : ascii) (sep' x y : string) :
  has_char c0 x = false ->
  forall cur,
    Py.split_from (String c0 sep') 0 cur (x ++ String c0 sep' ++ y)
    = (cur ++ x)%string :: Py.split_from (String c0 sep') 0 "" y.
Proof.
  induction x as [|a x IH]; intros Hx cur.
  - change ("" ++ String c0 sep' ++ y)%string
      with (String c0 (sep' ++ y)).
    cbn [Py.split_from].
    change (String c0 (sep' ++ y)) with (String c0 sep' ++ y)%string.
    rewrite prefix_self_app, string_app_nil_r.
    replace (String.length (String c0 sep') - 1)%nat
      with (String.length sep') by (cbn [String.length]; lia).
    now rewrite split_from_skip.
  - simpl in Hx. apply orb_false_elim in Hx as [Ha Hx].
    change (String a x ++ String c0 sep' ++ y)%string
      with (String a (x ++ String c0 sep' ++ y)).
    cbn [Py.split_from]. rewrite prefix_cons.
    rewrite Ascii.eqb_sym, Ha. cbn [andb].
    rewrite (IH Hx). now rewrite string_app_assoc.
Qed.

Lemma split_from_none (c0 : ascii) (sep' x : string) :
  has_char c0 x = false ->
  forall cur,
    Py.split_from (String c0 sep') 0 cur x = [(cur ++ x)%string].
Proof.
  induction x as [|a x IH]; intros Hx cur.
  - simpl. now rewrite string_app_nil_r.
  - simpl in Hx. apply orb_false_elim in Hx as [Ha Hx].
    cbn [Py.split_from]. rewrite prefix_cons.
    rewrite Ascii.eqb_sym, Ha. cbn [andb].
    rewrite (IH Hx). now rewrite string_app_assoc.
Qed.

Lemma split_char_head (c : ascii) (s : string) :
  forall cur, exists rest,
    Py.split_from (String c "") 0 cur s = (cur ++ until c s)%string :: rest.
Proof.
  induction s as [|a s IH]; intros cur.
  - exists []. simpl. now rewrite string_app_nil_r.
  - cbn [Py.split_from until]. rewrite prefix_cons, prefix_nil.
    rewrite andb_true_r, Ascii.eqb_sym.
    destruct (Ascii.eqb a c).
    + eexists. rewrite string_app_nil_r. reflexivity.
    + destruct (IH (cur ++ String a "")%string) as [rest ->].
      exists rest. now rewrite string_app_assoc.
Qed.


Lemma contains_char (c : ascii) (s : string) :
  Py.contains (String c "") s = has_char c s.
Proof.
  induction s as [|a s IH]; [reflexivity|].
  cbn [Py.contains has_char]. rewrite prefix_cons, prefix_nil.
  now rewrite andb_true_r, IH, Ascii.eqb_sym.
Qed.


(** *** Decimal numbers *)









(** *** Hunk headers *)







Lemma item_head {A} (a : A) (l : list A) : Py.item (a :: l) 0 = Ok a.
Proof.
  reflexivity.
Qed.

Lemma item_second {A} (a b : A) (l : list A) : Py.item (a :: b :: l) 1 = Ok b.
Proof.
  reflexivity.
Qed.



(** *** The lines of a hunk *)












(** *** Whole diffs *)








(** *** Order *)










Lemma render_example : render example_unified = example_diff.
Proof.
  reflexivity.
Qed.


(** A removed line that begins with [--] is taken for the file header as
    well, and moves the cursor: the line added in its place, line 1 of the
    new file, is recorded as line 2. *)
Lemma dashed_removal_shifts :
  render dashed_diff
  = ("--- a/q.php" ++ Py.nl ++ "+++ b/q.php" ++ Py.nl
     ++ "@@ -1,2 +1,2 @@" ++ Py.nl ++ "--- old" ++ Py.nl ++ "+new" ++ Py.nl
     ++ " kept" ++ Py.nl)%string
  /\ added_lines dashed_diff = [1]
  /\ parse_diff_for_new_lines (render dashed_diff) = Ok [2].
Proof.
  repeat split; vm_compute; reflexivity.
Qed.

(** * Further properties of the code *)

(** ** The line mapper on any text *)

Lemma parse_line_length (st st' : cursor) (line : string) :
  parse_line st line = Ok st' ->
  List.length (new_lines st')
  = (List.length (new_lines st) + if is_added line then 1 else 0)%nat.
Proof.
  unfold parse_line.
  destruct (Py.startswith line "@@") eqn:Hat.
  - assert (Hadd : is_added line = false).
    { destruct (is_added line) eqn:E; [|reflexivity].
      apply is_added_not_header in E. congruence. }
    rewrite Hadd.
    destruct (hunk_start line) as [n|[]]; intros [= <-]; simpl; lia.
  - fold (is_added line). destruct (is_added line).
    + intros [= <-]. simpl. rewrite length_app. simpl. lia.
    + destruct (Py.startswith line "-" && negb (Py.startswith line "---")).
      { intros [= <-]. lia. }
      destruct (negb (Py.startswith line "\")); intros [= <-]; simpl; lia.
Qed.

Lemma parse_lines_length (lines : list string) :
  forall st st',
    parse_lines st lines = Ok st' ->
    List.length (new_lines st')
    = (List.length (new_lines st)
       + List.length (filter is_added lines))%nat.
Proof.
  induction lines as [|l rest IH]; intros st st'; cbn [parse_lines filter].
  - intros [= <-]. simpl. lia.
  - destruct (parse_line st l) as [st1|e] eqn:E; cbn [rbind]; [|discriminate].
    intros H. rewrite (IH _ _ H), (parse_line_length _ _ _ E).
    destruct (is_added l); simpl; lia.
Qed.

(** X1.  For every text the result has one entry for each line that
    starts with [+] but not with [+++], and no other; it is empty exactly
    when the text has no such line. *)
Theorem one_number_per_added_line (diff : string) :
  exists lines,
    parse_diff_for_new_lines diff = Ok lines
    /\ List.length lines
       = List.length (filter is_added (Py.split diff Py.nl))
    /\ (lines = [] <-> filter is_added (Py.split diff Py.nl) = []).
Proof.
  unfold parse_diff_for_new_lines.
  destruct (parse_lines_total (Py.split diff Py.nl) (mkCursor [] 0))
    as [st Hst].
  rewrite Hst. cbn [rbind]. exists (new_lines st).
  pose proof (parse_lines_length _ _ _ Hst) as Hlen. simpl in Hlen.
  split; [reflexivity|]. split; [exact Hlen|].
  split; intros H.
  - rewrite H in Hlen. simpl in Hlen.
    now destruct (filter is_added (Py.split diff Py.nl)).
  - rewrite H in Hlen. simpl in Hlen. now destruct (new_lines st).
Qed.

Lemma parse_lines_headerless (lines : list string) :
  Forall (fun l => Py.startswith l "@@" = false) lines ->
  forall st, exists more last,
    parse_lines st lines = Ok (mkCursor (new_lines st ++ more) last)
    /\ StronglySorted Z.lt more
    /\ Forall (fun x => current_new_line st <= x < last) more
    /\ current_new_line st <= last.
Proof.
  induction 1 as [|l rest Hl _ IH]; intros st.
  - exists [], (current_new_line st). cbn [parse_lines].
    rewrite app_nil_r. destruct st. repeat split; try constructor. simpl. lia.
  - cbn [parse_lines]. unfold parse_line. rewrite Hl.
    destruct (Py.startswith l "+" && negb (Py.startswith l "+++")).
    + cbn [rbind].
      destruct (IH (mkCursor (new_lines st ++ [current_new_line st])
                      (current_new_line st + 1)))
        as (more & last & E & Hs & Hb & Hle).
      cbn [new_lines current_new_line] in *.
      exists (current_new_line st :: more), last.
      rewrite E, <- app_assoc. repeat split.
      * constructor; [exact Hs|].
        eapply Forall_impl; [|exact Hb]. cbn. intros; lia.
      * constructor; [lia|].
        eapply Forall_impl; [|exact Hb]. cbn. intros; lia.
      * lia.
    + assert (Hrest : forall st1,
                 current_new_line st <= current_new_line st1 ->
                 new_lines st1 = new_lines st ->
                 exists more last,
                   parse_lines st1 rest
                   = Ok (mkCursor (new_lines st ++ more) last)
                   /\ StronglySorted Z.lt more
                   /\ Forall (fun x => current_new_line st <= x < last) more
                   /\ current_new_line st <= last).
      { intros st1 Hc Hn.
        destruct (IH st1) as (more & last & E & Hs & Hb & Hle).
        exists more, last. rewrite E, Hn. repeat split; try assumption.
        - eapply Forall_impl; [|exact Hb]. cbn. intros; lia.
        - lia. }
      destruct (Py.startswith l "-" && negb (Py.startswith l "---")).
      { cbn [rbind]. apply Hrest; [lia | reflexivity]. }
      destruct (negb (Py.startswith l "\")); cbn [rbind]; apply Hrest;
        cbn; try lia; reflexivity.
Qed.

(** X2.  Over lines none of which is a hunk header, the numbers recorded
    are strictly increasing and lie between the cursor at the start and
    the cursor at the end, which only grows. *)
Theorem increasing_between_headers (st : cursor) (lines : list string) :
  Forall (fun l => Py.startswith l "@@" = false) lines ->
  exists more last,
    parse_lines st lines = Ok (mkCursor (new_lines st ++ more) last)
    /\ StronglySorted Z.lt more
    /\ Forall (fun x => current_new_line st <= x < last) more
    /\ current_new_line st <= last.
Proof.
  intros H. now apply parse_lines_headerless.
Qed.

Lemma increasing_between_headers_witness :
  exists more last,
    parse_lines (mkCursor [3] 7) [" a"; "+b"; "-c"; "+d"]
    = Ok (mkCursor (new_lines (mkCursor [3] 7) ++ more) last)
    /\ StronglySorted Z.lt more
    /\ Forall (fun x => current_new_line (mkCursor [3] 7) <= x < last) more
    /\ current_new_line (mkCursor [3] 7) <= last.
Proof.
  apply (increasing_between_headers (mkCursor [3] 7) [" a"; "+b"; "-c"; "+d"]).
  repeat constructor.
Defined.

(** ** The file selector under any configuration *)

Lemma ignored_app (path : string) (a b : list string) :
  ignored path (a ++ b) = ignored path a || ignored path b.
Proof.
  now rewrite !ignored_existsb, existsb_app.
Qed.

Lemma init_config_patterns (ignore_extra extensions_extra : string) :
  exists extra,
    IGNORE_PATTERNS (init_config ignore_extra extensions_extra)
    = IGNORE_PATTERNS default_config ++ extra
    /\ IGNORE_PATTERNS (init_config "" extensions_extra)
       = IGNORE_PATTERNS default_config.
Proof.
  unfold init_config. cbn [IGNORE_PATTERNS].
  destruct (nonempty ignore_extra).
  - eexists. split; reflexivity.
  - exists []. now rewrite app_nil_r.
Qed.

Lemma init_config_extensions (ignore_extra extensions_extra : string) :
  exists extra,
    REVIEW_EXTENSIONS (init_config ignore_extra extensions_extra)
    = REVIEW_EXTENSIONS default_config ++ extra
    /\ Forall (fun e => Py.startswith e "." = true) extra
    /\ REVIEW_EXTENSIONS (init_config ignore_extra "")
       = REVIEW_EXTENSIONS default_config.
Proof.
  unfold init_config. cbn [REVIEW_EXTENSIONS].
  destruct (nonempty extensions_extra).
  - eexists. split; [reflexivity|]. split; [|reflexivity].
    apply Forall_map, Forall_forall. intros e _.
    destruct (Py.startswith (Py.strip e) ".") eqn:E; [exact E|].
    unfold Py.startswith. cbn [append].
    now rewrite prefix_cons, prefix_nil.
  - exists []. rewrite app_nil_r. repeat split. constructor.
Qed.

Lemma patterns_independent (i e e' : string) :
  IGNORE_PATTERNS (init_config i e) = IGNORE_PATTERNS (init_config i e').
Proof.
  reflexivity.
Qed.

Lemma extensions_independent (i i' e : string) :
  REVIEW_EXTENSIONS (init_config i e) = REVIEW_EXTENSIONS (init_config i' e).
Proof.
  reflexivity.
Qed.

(** X3.  Whatever the environment sets, every configured extension starts
    with a dot, so a file whose name has no suffix is never reviewed. *)
Theorem file_without_suffix_not_reviewed
    (ignore_extra extensions_extra path : string) :
  path_suffix path = "" ->
  Forall (fun e => Py.startswith e "." = true)
         (REVIEW_EXTENSIONS (init_config ignore_extra extensions_extra))
  /\ should_review_file (init_config ignore_extra extensions_extra) path
     = false.
Proof.
  intros Hs.
  assert (Hdot : Forall (fun e => Py.startswith e "." = true)
                   (REVIEW_EXTENSIONS
                      (init_config ignore_extra extensions_extra))).
  { destruct (init_config_extensions ignore_extra extensions_extra)
      as (extra & -> & Hextra & _).
    apply Forall_app. split; [|exact Hextra].
    repeat constructor. }
  split; [exact Hdot|].
  unfold should_review_file. rewrite Hs.
  destruct (ignored path _); [reflexivity|].
  destruct (existsb _ _) eqn:E; [|reflexivity].
  apply existsb_exists in E as (e & Hin & He).
  apply String.eqb_eq in He. cbn in He. subst e.
  rewrite Forall_forall in Hdot. specialize (Hdot _ Hin). discriminate.
Qed.

Lemma file_without_suffix_not_reviewed_witness :
  Forall (fun e => Py.startswith e "." = true)
         (REVIEW_EXTENSIONS (init_config "" "Makefile, txt"))
  /\ should_review_file (init_config "" "Makefile, txt") "src/Makefile"
     = false.
Proof.
  apply (file_without_suffix_not_reviewed "" "Makefile, txt" "src/Makefile").
  reflexivity.
Defined.

(** X4.  Additions to the ignore patterns can only exclude files and
    additions to the extensions can only admit files: a file reviewed with
    extra patterns is reviewed without them, and a file reviewed without
    extra extensions is reviewed with them. *)
Theorem configuration_is_monotone
    (ignore_extra extensions_extra path : string) :
  (should_review_file (init_config ignore_extra extensions_extra) path = true
   -> should_review_file (init_config "" extensions_extra) path = true)
  /\ (should_review_file (init_config ignore_extra "") path = true
      -> should_review_file (init_config ignore_extra extensions_extra) path
         = true).
Proof.
  split.
  - unfold should_review_file.
    rewrite (extensions_independent ignore_extra "" extensions_extra).
    destruct (init_config_patterns ignore_extra extensions_extra)
      as (extra & -> & ->).
    rewrite ignored_app.
    destruct (ignored path (IGNORE_PATTERNS default_config)); simpl;
      [discriminate | now destruct (ignored path extra)].
  - unfold should_review_file.
    rewrite (patterns_independent ignore_extra "" extensions_extra).
    destruct (ignored path _); [discriminate|].
    destruct (init_config_extensions ignore_extra extensions_extra)
      as (extra & -> & _ & ->).
    rewrite existsb_app. now intros ->.
Qed.

(** X5.  The built-in directory and name patterns are substring tests
    that no configuration removes: a path in which one of these fragments
    occurs anywhere, inside a file name too, is refused. *)
Theorem default_fragments_always_excluded
    (ignore_extra extensions_extra path fragment : string) :
  In fragment
     [ "package-lock.json"; "yarn.lock"; "composer.lock"; "pnpm-lock.yaml";
       "__pycache__"; ".git"; "node_modules"; "vendor"; "storage";
       "bootstrap/cache"; "public/build"; "public/hot"; "dist"; "build";
       ".next"; ".nuxt"; ".phpstorm.meta.php" ] ->
  Py.contains fragment path = true ->
  should_review_file (init_config ignore_extra extensions_extra) path = false.
Proof.
  intros Hin Hc. unfold should_review_file.
  destruct (init_config_patterns ignore_extra extensions_extra)
    as (extra & -> & _).
  rewrite ignored_app.
  assert (H : ignored path (IGNORE_PATTERNS default_config) = true).
  { rewrite ignored_existsb. apply existsb_exists.
    cbn [In] in Hin.
    repeat (destruct Hin as [<- | Hin];
            [match goal with
             | Hf : Py.contains ?f path = true |- _ =>
                 first [ exists f; split; [cbn; tauto | exact Hf]
                       | exists (f ++ "/")%string;
                         split; [cbn; tauto | exact Hf] ]
             end|]).
    destruct Hin. }
  now rewrite H.
Qed.

Lemma default_fragments_always_excluded_witness :
  should_review_file (init_config "" "") "src/distribution.go" = false.
Proof.
  apply (default_fragments_always_excluded "" "" "src/distribution.go" "dist").
  - cbn. tauto.
  - reflexivity.
Defined.

(** ** Patterns with an inner asterisk *)

Lemma prefix_chars (c : ascii) (a : string) :
  forall b, prefix a b = true -> has_char c a = true -> has_char c b = true.
Proof.
  induction a as [|x a IH]; intros b Hp Hc; [discriminate|].
  destruct b as [|y b]; [discriminate|].
  rewrite prefix_cons in Hp. apply andb_prop in Hp as [Hxy Hp].
  apply Ascii.eqb_eq in Hxy. subst y.
  cbn [has_char] in *. apply orb_prop in Hc as [Hc|Hc].
  - now rewrite Hc.
  - rewrite (IH b Hp Hc). apply orb_true_r.
Qed.

Lemma contains_chars (c : ascii) (sub s : string) :
  Py.contains sub s = true -> has_char c sub = true -> has_char c s = true.
Proof.
  intros Hs Hc. induction s as [|x s IH].
  - cbn [Py.contains] in Hs. rewrite orb_false_r in Hs.
    exact (prefix_chars c sub "" Hs Hc).
  - cbn [Py.contains] in Hs. apply orb_prop in Hs as [Hs|Hs].
    + exact (prefix_chars c sub _ Hs Hc).
    + cbn [has_char]. rewrite (IH Hs). apply orb_true_r.
Qed.

Lemma has_char_rev (c : ascii) (s : string) :
  has_char c (Py.rev_string s) = has_char c s.
Proof.
  induction s as [|x s IH]; [reflexivity|].
  cbn [Py.rev_string has_char]. rewrite has_char_app, IH.
  cbn [has_char]. rewrite orb_false_r. apply orb_comm.
Qed.

Lemma endswith_chars (c : ascii) (s suf : string) :
  Py.endswith s suf = true -> has_char c suf = true -> has_char c s = true.
Proof.
  unfold Py.endswith. intros Hp Hc.
  rewrite <- has_char_rev. apply (prefix_chars c _ _ Hp).
  now rewrite has_char_rev.
Qed.

Lemma drop_chars (c : ascii) (s : string) :
  forall n, has_char c (Py.drop n s) = true -> has_char c s = true.
Proof.
  induction s as [|x s IH]; intros [|n]; cbn [Py.drop]; auto.
  intros H. cbn [has_char]. rewrite (IH n H). apply orb_true_r.
Qed.

Lemma split_from_chars (c : ascii) (sep s : string) :
  forall skip cur piece,
    In piece (Py.split_from sep skip cur s) ->
    has_char c piece = true ->
    has_char c cur = true \/ has_char c s = true.
Proof.
  induction s as [|x s IH]; intros skip cur piece Hin Hc.
  - destruct Hin as [<-|[]]. now left.
  - cbn [Py.split_from] in Hin. cbn [has_char].
    destruct skip as [|k].
    + destruct (prefix sep (String x s)).
      * destruct Hin as [<-|Hin]; [now left|].
        destruct (IH _ _ _ Hin Hc) as [H|H]; [discriminate|].
        right. rewrite H. apply orb_true_r.
      * destruct (IH _ _ _ Hin Hc) as [H|H].
        -- rewrite has_char_app in H. cbn [has_char] in H.
           rewrite orb_false_r in H. apply orb_prop in H as [H|H].
           ++ now left.
           ++ right. now rewrite H.
        -- right. rewrite H. apply orb_true_r.
    + destruct (IH _ _ _ Hin Hc) as [H|H]; [now left|].
      right. rewrite H. apply orb_true_r.
Qed.

Lemma last_in_or_default {A} (l : list A) (d : A) :
  last l d = d \/ In (last l d) l.
Proof.
  induction l as [|a l IH]; [now left|].
  destruct l as [|b l]; [right; now left|].
  change (last (a :: b :: l) d) with (last (b :: l) d).
  destruct IH as [H|H]; [now left | right; now right].
Qed.

Lemma path_name_chars (c : ascii) (path : string) :
  has_char c (path_name path) = true -> has_char c path = true.
Proof.
  unfold path_name. intros H.
  destruct (last_in_or_default
              (filter (fun p => negb (p =? "")%string && negb (p =? ".")%string)
                      (Py.split path "/")) "") as [E|Hin].
  - rewrite E in H. discriminate.
  - apply filter_In in Hin as [Hin _].
    destruct (split_from_chars c _ _ _ _ _ Hin H) as [H'|H'];
      [discriminate | exact H'].
Qed.

Lemma path_suffix_chars (c : ascii) (path : string) :
  has_char c (path_suffix path) = true -> has_char c path = true.
Proof.
  unfold path_suffix. intros H. apply path_name_chars.
  destruct (rfind_dot (path_name path)) as [i|]; [|discriminate].
  destruct ((0 <? i)%nat && (i <? String.length (path_name path) - 1)%nat);
    [|discriminate].
  exact (drop_chars c _ _ H).
Qed.

(** X6.  The two built-in patterns with an inner asterisk, [_ide_helper*]
    and [*.generated.*], are compared letter for letter, asterisk
    included: they hit no path that has no asterisk in it, so a file such
    as [_ide_helper.php] is not excluded by them. *)
Theorem asterisk_patterns_need_an_asterisk (path : string) :
  has_char "*" path = false ->
  pattern_hits path "_ide_helper*" = false
  /\ pattern_hits path "*.generated.*" = false.
Proof.
  intros Hno. split.
  - change (pattern_hits path "_ide_helper*")
      with (Py.contains "_ide_helper*" path).
    destruct (Py.contains "_ide_helper*" path) eqn:E; [|reflexivity].
    rewrite (contains_chars "*" _ _ E eq_refl) in Hno. discriminate.
  - change (pattern_hits path "*.generated.*")
      with ((path_suffix path =? ".generated.*")%string
            || Py.endswith (path_name path) ".generated.*").
    apply orb_false_iff. split.
    + destruct (String.eqb_spec (path_suffix path) ".generated.*") as [E|];
        [|reflexivity].
      assert (H : has_char "*" (path_suffix path) = true) by now rewrite E.
      rewrite (path_suffix_chars "*" _ H) in Hno. discriminate.
    + destruct (Py.endswith (path_name path) ".generated.*") eqn:E;
        [|reflexivity].
      pose proof (endswith_chars "*" _ _ E eq_refl) as H.
      rewrite (path_name_chars "*" _ H) in Hno. discriminate.
Qed.

Lemma asterisk_patterns_need_an_asterisk_witness :
  pattern_hits "_ide_helper.php" "_ide_helper*" = false
  /\ pattern_hits "_ide_helper.php" "*.generated.*" = false.
Proof.
  apply (asterisk_patterns_need_an_asterisk "_ide_helper.php"). reflexivity.
Defined.

(** ** Markers: what a pass writes, the next pass finds *)

Lemma contains_app (sub a b : string) :
  Py.contains sub (a ++ sub ++ b) = true.
Proof.
  induction a as [|x a IH].
  - cbn [append]. destruct (sub ++ b)%string eqn:E.
    + cbn [Py.contains]. rewrite <- E, prefix_self_app. reflexivity.
    + cbn [Py.contains]. rewrite <- E, prefix_self_app. reflexivity.
  - cbn [append Py.contains]. rewrite IH. apply orb_true_r.
Qed.

Lemma ai_comments_of_ids (d : discussion) :
  map note_id (ai_comments_of d) = map id (filter is_ai_note (notes d)).
Proof.
  unfold ai_comments_of. induction (notes d) as [|n ns IH]; [reflexivity|].
  cbn [flat_map filter]. rewrite map_app, IH. unfold is_ai_note.
  rewrite <- negb_orb.
  destruct (Py.contains "**RejPAL**" (body n)
            || Py.contains "**AI Review**" (body n)); reflexivity.
Qed.

(** X7.  [get_existing_ai_comments] returns, in the order of the
    discussions and of their notes, one entry for each note whose body
    holds the current or the legacy authorship marker, and no entry for any
    other note. *)
Theorem existing_ai_comments_are_the_marked_notes
    (discussions : list discussion) :
  map note_id (get_existing_ai_comments discussions)
  = map id (filter is_ai_note (flat_map notes discussions))
  /\ forall entry,
      In entry (get_existing_ai_comments discussions) ->
      exists d n,
        In d discussions /\ In n (notes d) /\ is_ai_note n = true
        /\ entry = mkAiComment (id n) (discussion_id d)
                     (option_map new_path (note_position n))
                     (option_map new_line (note_position n)).
Proof.
  split.
  - unfold get_existing_ai_comments.
    induction discussions as [|d ds IH]; [reflexivity|].
    cbn [flat_map]. rewrite map_app, filter_app, map_app, IH.
    now rewrite ai_comments_of_ids.
  - intros entry Hin. unfold get_existing_ai_comments in Hin.
    apply in_flat_map in Hin as (d & Hd & Hin).
    unfold ai_comments_of in Hin.
    apply in_flat_map in Hin as (n & Hn & Hin).
    exists d, n. unfold is_ai_note.
    rewrite <- negb_orb in Hin.
    destruct (Py.contains "**RejPAL**" (body n)
              || Py.contains "**AI Review**" (body n)); [|destruct Hin].
    destruct Hin as [<-|[]]. auto.
Qed.

Lemma format_comment_marked (repr : value -> string) (comment : dict)
    (text : string) :
  format_comment repr comment = Ok text ->
  Py.contains "**RejPAL**" text = true.
Proof.
  unfold format_comment.
  destruct (emoji_of _) as [emoji|e]; cbn [rbind]; [|discriminate].
  set (message := str repr (get_default comment "message" (VStr ""))).
  set (suggestion := get_default comment "suggestion" (VStr "")).
  assert (H : forall tail,
             Py.contains "**RejPAL**"
               ((emoji ++ " **RejPAL**: " ++ message) ++ tail) = true).
  { intros tail.
    replace ((emoji ++ " **RejPAL**: " ++ message) ++ tail)%string
      with ((emoji ++ " ") ++ "**RejPAL**" ++ ": " ++ message ++ tail)%string
      by (rewrite !string_app_assoc; reflexivity).
    apply contains_app. }
  destruct (truthy suggestion); intros [= <-].
  - apply H.
  - specialize (H ""). now rewrite string_app_nil_r in H.
Qed.

(** X8.  Every body [format_comment] returns holds the authorship marker,
    so a note with that body, wherever it sits among the discussions, is
    among the comments the next pass deletes. *)
Theorem formatted_comment_found_by_next_pass
    (repr : value -> string) (comment : dict)
    (discussions : list discussion) (d : discussion) (n : note) :
  format_comment repr comment = Ok (body n) ->
  In d discussions ->
  In n (notes d) ->
  Py.contains "**RejPAL**" (body n) = true
  /\ In (mkAiComment (id n) (discussion_id d)
           (option_map new_path (note_position n))
           (option_map new_line (note_position n)))
        (get_existing_ai_comments discussions).
Proof.
  intros Hf Hd Hn.
  pose proof (format_comment_marked _ _ _ Hf) as Hm.
  split; [exact Hm|].
  unfold get_existing_ai_comments. apply in_flat_map. exists d.
  split; [exact Hd|].
  unfold ai_comments_of. apply in_flat_map. exists n.
  split; [exact Hn|]. rewrite Hm. now left.
Qed.

Lemma formatted_comment_found_by_next_pass_witness :
  Py.contains "**RejPAL**"
    (body (mkNote 8 "🟡 **RejPAL**: m" (Some (mkPosition "a.py" 3)))) = true
  /\ In (mkAiComment 8 "d1" (Some "a.py") (Some 3))
        (get_existing_ai_comments
           [mkDiscussion "d1"
              [mkNote 8 "🟡 **RejPAL**: m" (Some (mkPosition "a.py" 3))]]).
Proof.
  apply (formatted_comment_found_by_next_pass (fun _ => "")
           [("line", VInt 3); ("severity", VStr "warning");
            ("message", VStr "m")]
           [mkDiscussion "d1"
              [mkNote 8 "🟡 **RejPAL**: m" (Some (mkPosition "a.py" 3))]]
           (mkDiscussion "d1"
              [mkNote 8 "🟡 **RejPAL**: m" (Some (mkPosition "a.py" 3))])
           (mkNote 8 "🟡 **RejPAL**: m" (Some (mkPosition "a.py" 3)))).
  - reflexivity.
  - now left.
  - now left.
Defined.





(** ** The reply of the advisory service *)

Lemma prefix_split (a : string) :
  forall b, prefix a b = true -> exists r, b = (a ++ r)%string.
Proof.
  induction a as [|x a IH]; intros b H.
  - exists b. reflexivity.
  - destruct b as [|y b]; [discriminate|].
    rewrite prefix_cons in H. apply andb_prop in H as [Hxy H].
    apply Ascii.eqb_eq in Hxy. subst y.
    destruct (IH b H) as [r ->]. exists r. reflexivity.
Qed.

Lemma split_from_nonempty (sep s : string) :
  forall skip cur, exists h t, Py.split_from sep skip cur s = h :: t.
Proof.
  induction s as [|x s IH]; intros skip cur; cbn [Py.split_from]; [eauto|].
  destruct skip; [|apply IH].
  destruct (prefix sep (String x s)); [eauto | apply IH].
Qed.

Lemma strip_fence_total (text : string) :
  exists inner, strip_fence text = Ok inner.
Proof.
  unfold strip_fence.
  destruct (Py.startswith text "```") eqn:E; [|eauto].
  unfold Py.startswith in E. apply prefix_split in E as [r ->].
  unfold Py.split.
  change ("```" ++ r)%string with ("" ++ String "`" "``" ++ r)%string.
  rewrite (split_from_found "`" "``" "" r eq_refl).
  destruct (split_from_nonempty "```" r 0 "") as (h & t & ->).
  rewrite item_second. cbn [rbind].
  destruct (Py.startswith h "json"); eauto.
Qed.

Lemma split_from_before (sep s : string) :
  forall cur, exists rest,
    Py.split_from sep 0 cur s = (cur ++ before sep s)%string :: rest.
Proof.
  induction s as [|x s IH]; intros cur.
  - exists []. cbn [Py.split_from before]. now rewrite string_app_nil_r.
  - cbn [Py.split_from before].
    destruct (prefix sep (String x s)).
    + eexists. now rewrite string_app_nil_r.
    + destruct (IH (cur ++ String x "")%string) as [rest ->].
      exists rest. now rewrite string_app_assoc.
Qed.

(** [before] gives the text up to the first occurrence: the separator
    follows it, unless the text has none, and starts nowhere inside it. *)
Lemma before_first (sep s : string) :
  exists tail,
    s = (before sep s ++ tail)%string
    /\ (tail = "" \/ prefix sep tail = true)
    /\ (forall a b,
           before sep s = (a ++ b)%string -> b <> "" ->
           prefix sep (b ++ tail) = false).
Proof.
  induction s as [|x s IH].
  - exists "". cbn [before]. repeat split; [now left|].
    intros a b E Hb. destruct a; destruct b; try discriminate.
    contradiction.
  - cbn [before]. destruct (prefix sep (String x s)) eqn:E.
    + exists (String x s). repeat split; [now right|].
      intros a b Eab Hb. destruct a; destruct b; try discriminate.
      contradiction.
    + destruct IH as (tail & Hs & Htail & Hfirst).
      exists tail. split; [cbn [append]; now rewrite <- Hs|].
      split; [exact Htail|].
      intros a b Eab Hb. destruct a as [|y a]; cbn [append] in Eab.
      * subst b. cbn [append]. now rewrite <- Hs.
      * injection Eab as _ Eab. now apply (Hfirst a b).
Qed.

Lemma before_cons (sep : string) (a : ascii) (s : string) :
  before sep (String a s)
  = if prefix sep (String a s) then "" else String a (before sep s).
Proof. reflexivity. Qed.

Lemma before_none (c0 : ascii) (sep' x : string) :
  has_char c0 x = false -> before (String c0 sep') x = x.
Proof.
  induction x as [|a x IH]; intros H; [reflexivity|].
  cbn [has_char] in H. apply orb_false_elim in H as [Ha Hx].
  cbn [before]. rewrite prefix_cons. rewrite Ascii.eqb_sym, Ha.
  cbn [andb]. now rewrite IH.
Qed.

Lemma before_found (c0 : ascii) (sep' x y : string) :
  has_char c0 x = false ->
  before (String c0 sep') (x ++ String c0 sep' ++ y) = x.
Proof.
  induction x as [|a x IH]; intros H.
  - cbn [append before].
    change (String c0 (sep' ++ y))%string with (String c0 sep' ++ y)%string.
    now rewrite prefix_self_app.
  - cbn [has_char] in H. apply orb_false_elim in H as [Ha Hx].
    change (String a x ++ String c0 sep' ++ y)%string
      with (String a (x ++ String c0 sep' ++ y))%string.
    rewrite before_cons, prefix_cons. rewrite Ascii.eqb_sym, Ha.
    cbn [andb]. now rewrite IH.
Qed.

(** X10.  Taking the code fence off a reply never raises; a reply that
    does not open with three backticks is left as it is; of a reply that
    opens with three backticks, what stands between them and the next
    three backticks, or the end of the reply when there are no more, is
    kept, without the four bytes of a leading [json]; so of a reply that
    opens with a fence tagged [json], with no backtick inside, what
    stands between the tag and the closing fence is kept. *)
Theorem fence_stripped (text : string) :
  (exists inner, strip_fence text = Ok inner)
  /\ (Py.startswith text "```" = false -> strip_fence text = Ok text)
  /\ (forall rest,
         text = ("```" ++ rest)%string ->
         strip_fence text
         = Ok (if Py.startswith (before "```" rest) "json"
               then Py.drop 4 (before "```" rest)
               else before "```" rest))
  /\ (forall inside after,
         has_char "`" inside = false ->
         text = ("```json" ++ inside ++ "```" ++ after)%string ->
         strip_fence text = Ok inside).
Proof.
  assert (Hfence : forall rest,
             strip_fence ("```" ++ rest)
             = Ok (if Py.startswith (before "```" rest) "json"
                   then Py.drop 4 (before "```" rest)
                   else before "```" rest)).
  { intros rest. unfold strip_fence, Py.split.
    assert (Hs : Py.startswith ("```" ++ rest) "```" = true).
    { unfold Py.startswith. cbn [append].
      now rewrite !prefix_cons, prefix_nil. }
    rewrite Hs.
    change ("```" ++ rest)%string
      with ("" ++ String "`" "``" ++ rest)%string.
    rewrite (split_from_found "`" "``" "" rest eq_refl).
    destruct (split_from_before "```" rest "") as [more ->].
    rewrite item_second. cbn [rbind append].
    now destruct (Py.startswith (before "```" rest) "json"). }
  split; [apply strip_fence_total|]. split.
  - intros H. unfold strip_fence. now rewrite H.
  - split.
    + intros rest ->. apply Hfence.
    + intros inside after Hin ->.
      change ("```json" ++ inside ++ "```" ++ after)%string
        with ("```" ++ ("json" ++ inside) ++ String "`" "``" ++ after)%string.
      rewrite Hfence.
      assert (Hj : has_char "`" ("json" ++ inside) = false).
      { rewrite has_char_app, Hin. reflexivity. }
      rewrite (before_found "`" "``" _ after Hj).
      unfold Py.startswith. cbn [append].
      now rewrite !prefix_cons, prefix_nil.
Qed.

(** A reply whose text holds single backticks: the text is kept whole. *)
Lemma fence_stripped_with_backticks :
  strip_fence ("```json" ++ Py.nl ++ "[a`b]" ++ Py.nl ++ "```")
  = Ok (Py.nl ++ "[a`b]" ++ Py.nl)%string.
Proof. vm_compute. reflexivity. Qed.

Lemma keys_not_valid (changed_lines : list Z) (d : dict) :
  filter (is_valid_comment changed_lines) (map (fun kv => VStr (fst kv)) d)
  = [].
Proof.
  induction d as [|kv d IH]; [reflexivity | exact IH].
Qed.

Lemma chars_not_valid (changed_lines : list Z) (l : list ascii) :
  filter (is_valid_comment changed_lines)
         (map (fun c => VStr (String c "")) l) = [].
Proof.
  induction l as [|c l IH]; [reflexivity | exact IH].
Qed.

(** X11.  What [analyze_with_ai] makes of a reply that is not a list of
    findings: text that is no JSON gives no findings; a JSON object or
    string gives no findings either; but [null], a number or a boolean
    raises TypeError, which nothing in the pass catches. *)
Theorem reply_that_is_no_list
    (json_loads : string -> result value) (changed_lines : list Z)
    (text inner : string) :
  strip_fence text = Ok inner ->
  (json_loads inner = Raise JSONDecodeError ->
   decode_comments json_loads changed_lines text = Ok [])
  /\ (forall d, json_loads inner = Ok (VDict d) ->
                decode_comments json_loads changed_lines text = Ok [])
  /\ (forall s, json_loads inner = Ok (VStr s) ->
                decode_comments json_loads changed_lines text = Ok [])
  /\ (forall v, json_loads inner = Ok v ->
                match v with
                | VNone | VBool _ | VInt _ | VFloat _ => True
                | _ => False
                end ->
                decode_comments json_loads changed_lines text
                = Raise TypeError).
Proof.
  intros Hs. unfold decode_comments. rewrite Hs. cbn [rbind].
  repeat split.
  - now intros ->.
  - intros d ->. cbn [iterate rbind]. now rewrite keys_not_valid.
  - intros s ->. cbn [iterate rbind]. now rewrite chars_not_valid.
  - intros v -> Hv. destruct v; try contradiction; reflexivity.
Qed.

Lemma reply_that_is_no_list_witness :
  ((fun _ : string => Ok VNone) "null" = Raise JSONDecodeError ->
   decode_comments (fun _ => Ok VNone) [11; 12] "null" = Ok [])
  /\ (forall d, (fun _ : string => Ok VNone) "null" = Ok (VDict d) ->
                decode_comments (fun _ => Ok VNone) [11; 12] "null" = Ok [])
  /\ (forall s, (fun _ : string => Ok VNone) "null" = Ok (VStr s) ->
                decode_comments (fun _ => Ok VNone) [11; 12] "null" = Ok [])
  /\ (forall v, (fun _ : string => Ok VNone) "null" = Ok v ->
                match v with
                | VNone | VBool _ | VInt _ | VFloat _ => True
                | _ => False
                end ->
                decode_comments (fun _ => Ok VNone) [11; 12] "null"
                = Raise TypeError).
Proof.
  apply (reply_that_is_no_list (fun _ => Ok VNone) [11; 12] "null" "null").
  reflexivity.
Defined.

(** ** The loop over the changes *)

Section Changes.

Variable repr : value -> string.
Variable json_loads : string -> result value.
Variable W : Type.
Variable gitlab : Remote W.

(** X12.  A finding that was kept but whose severity is a JSON array or
    object makes [format_comment] raise TypeError; the loop that publishes
    stops there, with no request made for it or for the findings after
    it. *)
Theorem unhashable_severity_stops_publishing
    (path : string) (refs : diff_refs) (comment : value)
    (rest : list value) (total : Z) (s : io W) :
  (exists l, lookup (dict_of comment) "severity" = Some (VList l))
  \/ (exists d, lookup (dict_of comment) "severity" = Some (VDict d)) ->
  format_comment repr (dict_of comment) = Raise TypeError
  /\ publish repr W gitlab path refs (comment :: rest) total s
     = (Raise TypeError, s).
Proof.
  intros H.
  assert (Hf : format_comment repr (dict_of comment) = Raise TypeError).
  { unfold format_comment, get_default.
    destruct H as [[l ->] | [d ->]]; reflexivity. }
  split; [exact Hf|].
  cbn [publish]. unfold bind, lift. now rewrite Hf.
Qed.

Lemma no_added_line_no_numbers (text : string) :
  filter is_added (Py.split text Py.nl) = [] ->
  parse_diff_for_new_lines text = Ok [].
Proof.
  intros H. unfold parse_diff_for_new_lines.
  destruct (parse_lines_total (Py.split text Py.nl) (mkCursor [] 0))
    as [st Hst].
  rewrite Hst. cbn [rbind].
  pose proof (parse_lines_length _ _ _ Hst) as Hlen.
  rewrite H in Hlen. simpl in Hlen. now destruct (new_lines st).
Qed.

(** X13.  A change that the file selector refuses, that deletes its file,
    or whose diff has no line starting with [+] (other than [+++]) makes
    no request at all: no file is fetched and the advisory service is not
    asked.  The first two leave the counters as they are; the third counts
    as a reviewed file. *)
Theorem unchanged_files_make_no_request
    (cfg : config) (rules branch : string) (refs : diff_refs)
    (total files : Z) (c : change) (s : io W) :
  (should_review_file cfg (change_new_path c) = false ->
   review_change repr json_loads W gitlab cfg rules branch refs
     (total, files) c s = (Ok (total, files), s))
  /\ (deleted_file c = true ->
      review_change repr json_loads W gitlab cfg rules branch refs
        (total, files) c s = (Ok (total, files), s))
  /\ (reviewable cfg c = true ->
      filter is_added (Py.split (diff c) Py.nl) = [] ->
      review_change repr json_loads W gitlab cfg rules branch refs
        (total, files) c s = (Ok (total, files + 1), s)).
Proof.
  unfold review_change, reviewable. repeat split.
  - now intros ->.
  - intros ->. now destruct (negb (should_review_file cfg _)).
  - intros Hr Hno. apply andb_prop in Hr as [-> Hd].
    apply negb_true_iff in Hd. rewrite Hd. cbn [negb].
    unfold bind, lift. now rewrite (no_added_line_no_numbers _ Hno).
Qed.

Lemma publish_counts (path : string) (refs : diff_refs)
    (comments : list value) :
  forall n,
    emits (publish repr W gitlab path refs comments n)
      (fun r evs =>
         Forall (fun e => is_post_discussion e = true) evs
         /\ forall t, r = Ok t -> t = n + Z.of_nat (List.length evs)).
Proof.
  induction comments as [|c rest IH]; intros n s.
  - exists []. cbn. rewrite app_nil_r. split; [reflexivity|].
    split; [constructor|]. intros t [= <-]. lia.
  - cbn [publish]. unfold bind, lift, create_mr_discussion, request.
    destruct (format_comment repr (dict_of c)) as [text|e].
    + destruct (http_post_discussion gitlab text path
                  (get (dict_of c) "line") refs (world s)) as [w st].
      destruct (IH (n + 1)
                  (mkIo w (trace s ++ [PostDiscussion text path
                                         (get (dict_of c) "line") st])))
        as (evs & E & Hall & Hn).
      exists (PostDiscussion text path (get (dict_of c) "line") st :: evs).
      split; [|split].
      * rewrite E. cbn [trace]. now rewrite <- app_assoc.
      * constructor; [reflexivity | exact Hall].
      * intros t Ht. rewrite (Hn t Ht). cbn [List.length]. lia.
    + exists []. cbn. rewrite app_nil_r. split; [reflexivity|].
      split; [constructor|]. discriminate.
Qed.

Lemma filter_all {A} (f : A -> bool) (l : list A) :
  Forall (fun x => f x = true) l -> filter f l = l.
Proof.
  induction 1 as [|x l Hx _ IH]; [reflexivity|].
  cbn [filter]. now rewrite Hx, IH.
Qed.

Lemma counted_after_quiet {A} (cfg : config) (total files : Z) (c : change)
    (m : M W A) (k : A -> M W (Z * Z)) :
  emits m (fun _ evs => Forall (fun e => is_post_discussion e = false) evs) ->
  (forall a, emits (k a) (counted cfg total files c)) ->
  emits (bind m k) (counted cfg total files c).
Proof.
  intros Hm Hk.
  eapply emits_weaken;
    [eapply (emits_bind m k _ (fun _ => counted cfg total files c));
     [exact Hm | exact Hk]|].
  unfold counted.
  intros r evs [(e & -> & _) | (a & x & y & Hx & Hy & ->)] t f Hr;
    [discriminate|].
  rewrite filter_app, (filter_none _ _ Hx). now apply Hy.
Qed.

Lemma review_change_counts (cfg : config) (rules branch : string)
    (refs : diff_refs) (total files : Z) (c : change) :
  emits (review_change repr json_loads W gitlab cfg rules branch refs
           (total, files) c)
    (counted cfg total files c).
Proof.
  assert (Hsilent : forall (v : Z * Z),
             v = (total, files + if reviewable cfg c then 1 else 0) ->
             emits (ret (W := W) v) (counted cfg total files c)).
  { intros v -> s. exists []. cbn. rewrite app_nil_r.
    split; [reflexivity|]. intros t f [= <- <-]. cbn. lia. }
  unfold review_change.
  assert (Hrev : reviewable cfg c
                 = should_review_file cfg (change_new_path c)
                   && negb (deleted_file c)) by reflexivity.
  destruct (should_review_file cfg (change_new_path c)); cbn [negb andb] in *.
  2:{ apply Hsilent. rewrite Hrev. f_equal. lia. }
  destruct (deleted_file c); cbn [negb] in *.
  { apply Hsilent. rewrite Hrev. f_equal. lia. }
  apply counted_after_quiet.
  { intros s. exists []. cbn. rewrite app_nil_r. auto. }
  intros lines. destruct lines as [|z lines].
  { apply Hsilent. now rewrite Hrev. }
  apply counted_after_quiet.
  { apply (get_file_content_only W gitlab
             (fun e => is_post_discussion e = false)). reflexivity. }
  intros [content|]; [|apply Hsilent; now rewrite Hrev].
  destruct content as [|x content]; [apply Hsilent; now rewrite Hrev|].
  apply counted_after_quiet.
  { unfold analyze_with_ai. intros s. unfold bind, request, lift.
    destruct (chat gitlab _ (world s)) as [w reply]. cbn.
    eexists. split; [reflexivity|]. repeat constructor. }
  intros kept.
  eapply emits_weaken;
    [eapply (emits_bind _ _ _
               (fun tot r evs => r = Ok (tot, files + 1) /\ evs = []));
     [apply publish_counts | intros tot; apply emits_ret]|].
  unfold counted. rewrite Hrev.
  intros r evs [(e & -> & _) | (tot & x' & y & (Hall & Hn) & (-> & ->) & ->)]
    t f Hr; [discriminate|].
  injection Hr as <- <-. rewrite app_nil_r, (filter_all _ _ Hall).
  split; [now apply Hn | reflexivity].
Qed.

(** X14.  When the loop over the changes completes, the number of
    comments it reports is the number of requests to create one that it
    made, refused requests included, and the number of files it reports is
    the number of changes that passed the file selector and do not delete
    their file, whether or not their content could be fetched. *)
Theorem counters_of_the_pass
    (cfg : config) (rules branch : string) (refs : diff_refs)
    (changes : list change) (total files : Z) (s : io W) :
  exists evs,
    trace (snd (review_changes repr json_loads W gitlab cfg rules branch
                  refs changes (total, files) s))
    = trace s ++ evs
    /\ forall t f,
        fst (review_changes repr json_loads W gitlab cfg rules branch
               refs changes (total, files) s) = Ok (t, f) ->
        t = total + Z.of_nat (List.length (filter is_post_discussion evs))
        /\ f = files
               + Z.of_nat (List.length (filter (reviewable cfg) changes)).
Proof.
  revert total files s.
  induction changes as [|c rest IH]; intros total files s.
  - exists []. cbn. rewrite app_nil_r. split; [reflexivity|].
    intros t f [= <- <-]. lia.
  - cbn [review_changes]. unfold bind.
    destruct (review_change_counts cfg rules branch refs total files c s)
      as (x & Ex & Hx).
    destruct (review_change repr json_loads W gitlab cfg rules branch refs
                (total, files) c s) as [[[t1 f1]|e] s1]; cbn [fst snd] in *.
    + destruct (IH t1 f1 s1) as (y & Ey & Hy).
      exists (x ++ y). split; [now rewrite Ey, Ex, app_assoc|].
      intros t f Hr. destruct (Hy t f Hr) as [-> ->].
      destruct (Hx t1 f1 eq_refl) as [-> ->].
      rewrite filter_app, length_app. cbn [filter].
      destruct (reviewable cfg c); cbn [List.length]; lia.
    + exists x. split; [exact Ex | discriminate].
Qed.

End Changes.

Lemma unhashable_severity_stops_publishing_witness :
  format_comment (fun _ => "")
    (dict_of (VDict [("line", VInt 11); ("severity", VList []);
                     ("message", VStr "m")]))
  = Raise TypeError
  /\ publish (fun _ => "") unit one_file_server "a.py" no_refs
       (VDict [("line", VInt 11); ("severity", VList []);
               ("message", VStr "m")] :: three_findings) 0 start
     = (Raise TypeError, start).
Proof.
  apply (unhashable_severity_stops_publishing (fun _ => "") unit
           one_file_server "a.py" no_refs
           (VDict [("line", VInt 11); ("severity", VList []);
                   ("message", VStr "m")]) three_findings 0 start).
  left. exists []. reflexivity.
Defined.

(** ** The advisory client *)

Lemma missing_nothing (p m t o a : option string) :
  missing_variables p m t o a = [] ->
  given p = true /\ given m = true /\ given t = true
  /\ (given o = true \/ given a = true).
Proof.
  unfold missing_variables.
  destruct (given p), (given m), (given t), (given o), (given a);
    cbn; try discriminate; auto.
Qed.

(** X15.  When the check of the environment at the head of [main] finds
    nothing missing, building the client with the provider left to [auto]
    does not raise, the client is OpenAI's exactly when OPENAI_API_KEY is
    given (it wins over ANTHROPIC_API_KEY), and the key the client gets
    is a given one. *)
Theorem checked_environment_builds_a_client
    (ci_project_id mr_iid gitlab_token openai_api_key anthropic_api_key
     : option string) (openai_model anthropic_model : string) :
  missing_variables ci_project_id mr_iid gitlab_token openai_api_key
    anthropic_api_key = [] ->
  exists client,
    AIClient "auto" openai_api_key anthropic_api_key openai_model
      anthropic_model = Ok client
    /\ given (client_api_key client) = true
    /\ (client_backend client = OpenAI <-> given openai_api_key = true).
Proof.
  intros H. apply missing_nothing in H as (_ & _ & _ & Hkey).
  unfold AIClient, _detect_provider. cbn [String.eqb negb].
  change ("auto" =? "auto")%string with true. cbn [negb].
  destruct (given openai_api_key) eqn:Ho.
  - cbn. eexists. split; [reflexivity|]. cbn. split; [exact Ho|].
    split; reflexivity.
  - destruct Hkey as [Hk|Hk]; [discriminate|]. rewrite Hk. cbn.
    eexists. split; [reflexivity|]. cbn. split; [exact Hk|].
    split; discriminate.
Qed.

Lemma checked_environment_builds_a_client_witness :
  exists client,
    AIClient "auto" (Some "") (Some "sk-ant") "gpt-4o" "claude" = Ok client
    /\ given (client_api_key client) = true
    /\ (client_backend client = OpenAI <-> given (Some "") = true).
Proof.
  apply (checked_environment_builds_a_client
           (Some "12") (Some "3") (Some "glpat") (Some "") (Some "sk-ant")
           "gpt-4o" "claude").
  reflexivity.
Defined.

(** X16.  A provider named explicitly is not checked: any name other than
    [auto] and [openai], a differently cased [OpenAI] included, gets the
    Anthropic client with ANTHROPIC_API_KEY as it is, set or not; and with
    [auto] and neither key given the constructor raises ValueError. *)
Theorem unknown_provider_is_anthropic
    (provider : string) (openai_api_key anthropic_api_key : option string)
    (openai_model anthropic_model : string) :
  provider <> "auto" ->
  provider <> "openai" ->
  AIClient provider openai_api_key anthropic_api_key openai_model
    anthropic_model
  = Ok (mkAiClient provider Anthropic anthropic_api_key anthropic_model)
  /\ (given openai_api_key = false -> given anthropic_api_key = false ->
      AIClient "auto" openai_api_key anthropic_api_key openai_model
        anthropic_model = Raise ValueError).
Proof.
  intros Hauto Hopen. split.
  - unfold AIClient, _detect_provider, _init_client.
    apply String.eqb_neq in Hauto, Hopen. rewrite Hauto. cbn.
    now rewrite Hopen.
  - intros Ho Ha. unfold AIClient, _detect_provider.
    change ("auto" =? "auto")%string with true. cbn [negb].
    now rewrite Ho, Ha.
Qed.

Lemma unknown_provider_is_anthropic_witness :
  AIClient "OpenAI" (Some "sk") None "gpt-4o" "claude"
  = Ok (mkAiClient "OpenAI" Anthropic None "claude")
  /\ (given (Some "sk") = false -> given None = false ->
      AIClient "auto" (Some "sk") None "gpt-4o" "claude" = Raise ValueError).
Proof.
  apply (unknown_provider_is_anthropic "OpenAI" (Some "sk") None
           "gpt-4o" "claude"); discriminate.
Defined.

(** ** Addresses *)

Lemma rstrip_slash_slash (s : string) :
  rstrip_slash (s ++ "/") = rstrip_slash s.
Proof.
  induction s as [|c s IH]; [reflexivity|].
  cbn [append rstrip_slash]. now rewrite IH.
Qed.

Lemma rstrip_slash_length (s : string) :
  (String.length (rstrip_slash s) <= String.length s)%nat.
Proof.
  induction s as [|c s IH]; [reflexivity|].
  cbn [rstrip_slash]. destruct (rstrip_slash s) as [|x r].
  - destruct (Ascii.eqb c "/"); cbn; lia.
  - cbn [String.length] in *. lia.
Qed.

Lemma rstrip_slash_idempotent (s : string) :
  rstrip_slash (rstrip_slash s) = rstrip_slash s.
Proof.
  induction s as [|c s IH]; [reflexivity|].
  cbn [rstrip_slash]. destruct (rstrip_slash s) as [|x r] eqn:E.
  - destruct (Ascii.eqb c "/") eqn:Ec; [reflexivity|].
    cbn [rstrip_slash]. now rewrite Ec.
  - change (rstrip_slash (String c (String x r)))
      with (match rstrip_slash (String x r) with
            | "" => if Ascii.eqb c "/" then "" else String c ""
            | r' => String c r'
            end).
    now rewrite IH.
Qed.

Lemma string_length_app (a b : string) :
  String.length (a ++ b) = (String.length a + String.length b)%nat.
Proof.
  induction a as [|x a IH]; [reflexivity|]. cbn. now rewrite IH.
Qed.

(** X17.  The client drops every trailing slash of the server address:
    the address kept never ends with a slash, and a server address given
    with or without a trailing slash yields the same request
    addresses. *)
Theorem trailing_slash_of_server_ignored
    (url token project endpoint : string) :
  (forall r, base_url (GitLabClient url token project) <> (r ++ "/")%string)
  /\ _api (GitLabClient (url ++ "/") token project) endpoint
     = _api (GitLabClient url token project) endpoint
  /\ _api (GitLabClient url token project) endpoint
     = (rstrip_slash url ++ "/api/v4/projects/" ++ project ++ "/"
        ++ endpoint)%string.
Proof.
  split; [|split].
  - cbn [GitLabClient base_url]. intros r E.
    pose proof (rstrip_slash_idempotent url) as Hi.
    rewrite E, rstrip_slash_slash in Hi.
    pose proof (rstrip_slash_length r) as Hl.
    rewrite Hi, string_length_app in Hl. cbn in Hl. lia.
  - unfold _api, GitLabClient. cbn [base_url project_id].
    now rewrite rstrip_slash_slash.
  - reflexivity.
Qed.

Lemma quote_byte_chars (c : ascii) : all_chars url_char (quote_byte c) = true.
Proof.
  destruct c as [[] [] [] [] [] [] [] []]; reflexivity.
Qed.

Lemma unquote_quote_byte (c : ascii) (rest : string) :
  unquote (quote_byte c ++ rest) = String c (unquote rest).
Proof.
  destruct c as [[] [] [] [] [] [] [] []]; reflexivity.
Qed.

Lemma unquote_quote (s : string) : unquote (quote s) = s.
Proof.
  induction s as [|c s IH]; [reflexivity|].
  cbn [quote]. now rewrite unquote_quote_byte, IH.
Qed.

(** X18.  The file path is written into the address with every byte
    other than a letter, a digit or one of [_.-~] replaced by a percent
    escape: the written path holds no slash, question mark or other
    separator, it can be read back, and two paths are never written the
    same way. *)
Theorem quoted_path_is_one_segment (path : string) :
  all_chars url_char (quote path) = true
  /\ has_char "/" (quote path) = false
  /\ has_char "?" (quote path) = false
  /\ unquote (quote path) = path
  /\ forall other, quote other = quote path -> other = path.
Proof.
  assert (H : all_chars url_char (quote path) = true).
  { induction path as [|c s IH]; [reflexivity|].
    cbn [quote]. now rewrite all_chars_app, quote_byte_chars, IH. }
  split; [exact H|].
  split; [apply (all_chars_no_char url_char); [reflexivity | exact H]|].
  split; [apply (all_chars_no_char url_char); [reflexivity | exact H]|].
  split; [apply unquote_quote|].
  intros other E. rewrite <- (unquote_quote other), E. apply unquote_quote.
Qed.

(** ** Which refusals end the pass *)

Section Refusals.

Variable repr : value -> string.
Variable json_loads : string -> result value.
Variable W : Type.
Variable gitlab : Remote W.

Lemma stops_bind {A B} (m : M W A) (k : A -> M W B) :
  emits m stops_at_refusal ->
  (forall a, emits (k a) stops_at_refusal) ->
  emits (bind m k) stops_at_refusal.
Proof.
  intros Hm Hk.
  eapply emits_weaken;
    [eapply (emits_bind m k _ (fun _ => stops_at_refusal));
     [exact Hm | exact Hk]|].
  unfold stops_at_refusal.
  intros r evs [(e & -> & H) | (a & x & y & Hx & Hy & ->)].
  - destruct H as [H | (before & e' & st & -> & Hb & He & Hr)];
      [now left|].
    right. exists before, e', st. injection Hr as ->. auto.
  - destruct Hx as [Hx | (before & e' & st & _ & _ & _ & Hr)];
      [|discriminate].
    destruct Hy as [Hy | (before & e' & st & -> & Hb & He & Hr)].
    + left. apply Forall_app. auto.
    + right. exists (x ++ before), e', st. rewrite app_assoc.
      repeat split; auto. apply Forall_app. auto.
Qed.

Lemma only_stops {A} (m : M W A) :
  emits m (only harmless) -> emits m stops_at_refusal.
Proof.
  intros H. eapply emits_weaken; [exact H|].
  intros r evs Hall. now left.
Qed.

(** A request whose status is then checked. *)
Lemma checked_request_stops {A B} (op : W -> W * A) (ev : A -> event)
    (status : A -> Z) (f : A -> B) :
  (forall a, fatal_status (ev a)
             = if refused (status a) then Some (status a) else None) ->
  emits (bind (request op ev)
           (fun r => bind (raise_for_status (status r))
                       (fun _ => ret (f r))))
    stops_at_refusal.
Proof.
  intros Hev s. unfold bind, request, raise_for_status, ret, throw.
  destruct (op (world s)) as [w a]. fold (refused (status a)).
  exists [ev a]. specialize (Hev a).
  destruct (refused (status a)); cbn [fst snd trace].
  - split; [reflexivity|]. right. exists [], (ev a), (status a).
    repeat split; auto.
  - split; [reflexivity|]. left. repeat constructor. exact Hev.
Qed.

Lemma get_file_content_stops (path ref : string) :
  emits (get_file_content W gitlab path ref) stops_at_refusal.
Proof.
  intros s. unfold get_file_content, bind, request, raise_for_status, ret,
    throw.
  destruct (http_get_file gitlab path ref (world s)) as [w [st text]].
  cbn [fst snd]. exists [GetFile path ref st].
  destruct (st =? 404) eqn:E404; cbn [fst snd trace].
  - split; [reflexivity|]. left. repeat constructor. cbn. now rewrite E404.
  - fold (refused st). destruct (refused st) eqn:Er; cbn [fst snd trace].
    + split; [reflexivity|]. right. exists [], (GetFile path ref st), st.
      repeat split; auto. cbn. now rewrite E404, Er.
    + split; [reflexivity|]. left. repeat constructor. cbn.
      now rewrite E404, Er.
Qed.

Lemma update_mr_note_stops (target : value) (text : string) :
  emits (update_mr_note W gitlab target text) stops_at_refusal.
Proof.
  intros s. unfold update_mr_note, bind, request, raise_for_status, ret,
    throw.
  destruct (http_put_note gitlab target text (world s)) as [w st].
  exists [PutNote target text st]. fold (refused st).
  destruct (refused st) eqn:Er; cbn [fst snd trace].
  - split; [reflexivity|]. right. exists [], (PutNote target text st), st.
    repeat split; auto. cbn. now rewrite Er.
  - split; [reflexivity|]. left. repeat constructor. cbn. now rewrite Er.
Qed.

Lemma silent_stops {A} (m : M W A) :
  emits m (fun _ evs => evs = []) -> emits m stops_at_refusal.
Proof.
  intros H. eapply emits_weaken; [exact H|].
  intros r evs ->. left. constructor.
Qed.

Lemma ret_stops {A} (a : A) : emits (ret (W := W) a) stops_at_refusal.
Proof.
  apply silent_stops. intros s. exists []. cbn. now rewrite app_nil_r.
Qed.

Lemma lift_stops {A} (x : result A) : emits (lift (W := W) x) stops_at_refusal.
Proof.
  apply silent_stops. intros s. exists []. cbn. now rewrite app_nil_r.
Qed.

Lemma ensure_summary_stops : emits (ensure_summary W gitlab) stops_at_refusal.
Proof.
  unfold ensure_summary. apply stops_bind.
  - unfold get_mr_notes.
    apply (checked_request_stops _ _ fst snd). reflexivity.
  - intros ns.
    destruct (negb (truthy (value_of_id (find_existing_summary_note ns))));
      [|apply ret_stops].
    apply stops_bind; [|intros; apply ret_stops].
    unfold create_mr_note.
    apply (checked_request_stops _ _ fst snd). reflexivity.
Qed.

Lemma review_change_stops (cfg : config) (rules branch : string)
    (refs : diff_refs) (counters : Z * Z) (c : change) :
  emits (review_change repr json_loads W gitlab cfg rules branch refs
           counters c) stops_at_refusal.
Proof.
  unfold review_change. destruct counters as [total files].
  destruct (negb (should_review_file cfg (change_new_path c)));
    [apply ret_stops|].
  destruct (deleted_file c); [apply ret_stops|].
  apply stops_bind; [apply lift_stops|]. intros lines.
  destruct lines as [|z lines]; [apply ret_stops|].
  apply stops_bind; [apply get_file_content_stops|].
  intros [content|]; [|apply ret_stops].
  destruct content as [|x content]; [apply ret_stops|].
  apply stops_bind.
  - apply only_stops. unfold analyze_with_ai.
    apply only_bind; [now apply only_request | intros; apply only_lift].
  - intros kept. apply stops_bind; [|intros; apply ret_stops].
    apply only_stops. apply publish_only. reflexivity.
Qed.

Lemma review_changes_stops (cfg : config) (rules branch : string)
    (refs : diff_refs) (changes : list change) :
  forall counters,
    emits (review_changes repr json_loads W gitlab cfg rules branch refs
             changes counters) stops_at_refusal.
Proof.
  induction changes as [|c rest IH]; intros counters; cbn [review_changes].
  - apply ret_stops.
  - apply stops_bind; [apply review_change_stops | exact IH].
Qed.

(** X20.  Among the requests of a pass, only the last can be one whose
    refusal is fatal: a reading of the merge request, of its changes,
    discussions or notes, the creation or the update of the summary note
    answered with a status from 400 to 599, or a file read answered so
    with a status other than 404.  The pass then ends with the HTTP error
    of that status and makes no further request. *)
Theorem pass_stops_at_fatal_refusal
    (ignore_extra extensions_extra rules : string) (s : io W) :
  exists evs,
    trace (snd (main repr json_loads W gitlab ignore_extra extensions_extra
                  rules s)) = trace s ++ evs
    /\ (Forall (fun e => fatal_status e = None) evs
        \/ exists before e st,
            evs = before ++ [e]
            /\ Forall (fun e => fatal_status e = None) before
            /\ fatal_status e = Some st
            /\ fst (main repr json_loads W gitlab ignore_extra
                      extensions_extra rules s) = Raise (HTTPError st)).
Proof.
  assert (H : emits (main repr json_loads W gitlab ignore_extra
                       extensions_extra rules) stops_at_refusal).
  { unfold main.
    apply stops_bind.
    { unfold get_mr_info. apply (checked_request_stops _ _ fst snd).
      reflexivity. }
    intros branch. apply stops_bind.
    { unfold get_mr_changes. apply (checked_request_stops _ _ fst snd).
      reflexivity. }
    intros ch. apply stops_bind.
    { unfold get_mr_discussions. apply (checked_request_stops _ _ fst snd).
      reflexivity. }
    intros ds. apply stops_bind.
    { apply only_stops. now apply delete_existing_only. }
    intros dc. apply stops_bind; [apply ensure_summary_stops|].
    intros sid. apply stops_bind; [apply review_changes_stops|].
    intros counters. apply update_mr_note_stops. }
  destruct (H s) as (evs & E & Hs). exists evs. split; [exact E|].
  exact Hs.
Qed.

End Refusals.

(** ** What a pass deletes *)

Lemma existing_marked (listed : list discussion) (c : ai_comment) :
  In c (get_existing_ai_comments listed) ->
  exists d n,
    In d listed /\ In n (notes d) /\ is_ai_note n = true
    /\ c = mkAiComment (id n) (discussion_id d)
            (option_map new_path (note_position n))
            (option_map new_line (note_position n)).
Proof.
  intros Hin. unfold get_existing_ai_comments in Hin.
  apply in_flat_map in Hin as (d & Hd & Hin).
  unfold ai_comments_of in Hin.
  apply in_flat_map in Hin as (n & Hn & Hin).
  exists d, n. unfold is_ai_note.
  rewrite <- negb_orb in Hin.
  destruct (Py.contains "**RejPAL**" (body n)
            || Py.contains "**AI Review**" (body n)); [|destruct Hin].
  destruct Hin as [<-|[]]. auto.
Qed.

Section Deletions.

Variable repr : value -> string.
Variable json_loads : string -> result value.
Variable W : Type.
Variable gitlab : Remote W.

Lemma delete_existing_targets (listed : list discussion)
    (existing : list ai_comment) :
  (forall c, In c existing -> In c (get_existing_ai_comments listed)) ->
  forall n,
    emits (delete_existing W gitlab existing n) (only (deletes_marked listed)).
Proof.
  induction existing as [|c rest IH]; intros Hsub n; cbn [delete_existing].
  - apply only_ret.
  - apply only_bind.
    + unfold delete_mr_note. apply only_request.
      intros st target st' [= <- <-].
      destruct (existing_marked listed c (Hsub c (or_introl eq_refl)))
        as (d & m & Hd & Hm & Ha & ->).
      exists d, m. auto.
    + intros _. apply IH. intros c' Hc'. apply Hsub. now right.
Qed.

Lemma deletions_listed_left {A B} (m : M W A) (k : A -> M W B) :
  emits m (only no_delete) ->
  (forall a, emits (k a) deletions_listed) ->
  emits (bind m k) deletions_listed.
Proof.
  intros Hm Hk.
  eapply emits_weaken;
    [eapply (emits_bind m k _ (fun _ => deletions_listed));
     [exact Hm | exact Hk]|].
  unfold deletions_listed, only.
  intros r evs [(e & _ & H) | (a & x & y & Hx & Hy & ->)] target st Hin.
  - rewrite Forall_forall in H. specialize (H _ Hin). discriminate.
  - apply in_app_or in Hin as [Hin|Hin].
    + rewrite Forall_forall in Hx. specialize (Hx _ Hin). discriminate.
    + destruct (Hy target st Hin) as (st0 & listed & d & n & Hg & Hrest).
      exists st0, listed, d, n. split; [|exact Hrest].
      apply in_or_app. now right.
Qed.

Lemma get_mr_discussions_listing :
  emits (get_mr_discussions W gitlab)
    (fun r evs =>
       exists st listed,
         evs = [GetDiscussions st listed]
         /\ forall ds, r = Ok ds -> ds = listed).
Proof.
  intros s. unfold get_mr_discussions, bind, request, raise_for_status, ret,
    throw.
  destruct (http_get_discussions gitlab (world s)) as [w [st listed]].
  cbn [fst snd]. exists [GetDiscussions st listed].
  destruct ((400 <=? st) && (st <? 600)); cbn [fst snd trace].
  - split; [reflexivity|]. exists st, listed. split; [reflexivity|].
    discriminate.
  - split; [reflexivity|]. exists st, listed. split; [reflexivity|].
    now intros ds [= <-].
Qed.

Lemma not_a_delete (listed : list discussion) (e : event) :
  is_delete_note e = false -> deletes_marked listed e.
Proof.
  intros H target st ->. discriminate.
Qed.

(** X21.  Whatever the server answers, every note a pass asks to delete
    is a note of the discussions it was shown whose body holds the current
    or the legacy authorship marker; a note without a marker is never
    deleted. *)
Theorem only_marked_notes_deleted
    (ignore_extra extensions_extra rules : string) (s : io W) :
  exists evs,
    trace (snd (main repr json_loads W gitlab ignore_extra extensions_extra
                  rules s)) = trace s ++ evs
    /\ forall target st,
        In (DeleteNote target st) evs ->
        exists st0 listed d n,
          In (GetDiscussions st0 listed) evs
          /\ In d listed /\ In n (notes d)
          /\ (Py.contains "**RejPAL**" (body n)
              || Py.contains "**AI Review**" (body n)) = true
          /\ target = id n.
Proof.
  assert (H : emits (main repr json_loads W gitlab ignore_extra
                       extensions_extra rules) deletions_listed).
  { unfold main.
    apply deletions_listed_left; [now apply get_mr_info_only|].
    intros branch.
    apply deletions_listed_left; [now apply get_mr_changes_only|].
    intros ch.
    eapply emits_weaken.
    { eapply (emits_bind _ _ _ (fun ds => only (deletes_marked ds))).
      - apply get_mr_discussions_listing.
      - intros ds. apply only_bind.
        + apply delete_existing_targets. auto.
        + intros dc. apply only_bind.
          * apply ensure_summary_only; intros; now apply not_a_delete.
          * intros sid. apply only_bind.
            -- apply review_changes_only; intros; now apply not_a_delete.
            -- intros counters. apply update_mr_note_only.
               intros; now apply not_a_delete. }
    unfold deletions_listed, only.
    intros r evs
      [(e & _ & (st0 & listed & -> & _))
      | (ds & x & y & (st0 & listed & -> & Hds) & Hy & ->)] target st Hin.
    - destruct Hin as [Hin|[]]. discriminate.
    - specialize (Hds ds eq_refl). subst ds.
      destruct Hin as [Hin|Hin]; [discriminate|].
      rewrite Forall_forall in Hy.
      destruct (Hy _ Hin target st eq_refl) as (d & n & Hd & Hn & Ha & ->).
      exists st0, listed, d, n. repeat split; auto. now left. }
  destruct (H s) as (evs & E & HP). exists evs. split; [exact E|].
  exact HP.
Qed.

End Deletions.

(** ** The start an [@@] line gives *)

Lemma until_none (c : ascii) (s : string) :
  has_char c s = false -> until c s = s.
Proof.
  induction s as [|a s IH]; intros H; [reflexivity|].
  cbn [has_char] in H. apply orb_false_elim in H as [Ha Hs].
  cbn [until]. rewrite Ha. now rewrite IH.
Qed.

Lemma has_char_until (c : ascii) (s : string) :
  has_char c (until c s) = false.
Proof.
  induction s as [|a s IH]; [reflexivity|].
  cbn [until]. destruct (Ascii.eqb a c) eqn:E; [reflexivity|].
  cbn [has_char]. now rewrite E, IH.
Qed.

Lemma first_char_split (c : ascii) (s : string) :
  has_char c s = true ->
  s = (until c s ++ String c "" ++ after_first c s)%string.
Proof.
  induction s as [|a s IH]; intros H; [discriminate|].
  cbn [has_char] in H. cbn [until after_first].
  destruct (Ascii.eqb a c) eqn:E.
  - apply Ascii.eqb_eq in E. now subst a.
  - cbn [orb] in H. cbn [append]. f_equal. now apply IH.
Qed.

(** The [try] block reads the start in the start field, and fails with
    IndexError on a line that holds no [+]. *)
Lemma hunk_start_field (line : string) :
  hunk_start line
  = if has_char "+" line then Py.int (start_field line)
    else Raise IndexError.
Proof.
  unfold hunk_start, Py.split.
  destruct (has_char "+" line) eqn:Hplus.
  - rewrite (first_char_split "+" line Hplus) at 1.
    rewrite (split_from_found "+" "" _ _ (has_char_until "+" line)).
    destruct (split_char_head "+" (after_first "+" line) "") as [r1 ->].
    rewrite item_second. cbn [rbind append].
    destruct (split_from_before "@@" (until "+" (after_first "+" line)) "")
      as [r2 ->].
    rewrite item_head. cbn [rbind append].
    unfold start_field.
    set (plus_part := Py.strip _).
    rewrite contains_char.
    destruct (has_char "," plus_part) eqn:Hcomma.
    + unfold Py.split.
      destruct (split_char_head "," plus_part "") as [r3 ->].
      rewrite item_head. reflexivity.
    + now rewrite (until_none _ _ Hcomma).
  - now rewrite (split_from_none "+" "" line Hplus).
Qed.

(** What the loop does with an [@@] line. *)
Lemma parse_line_header (st : cursor) (line : string) :
  Py.startswith line "@@" = true ->
  parse_line st line
  = match start_read line with
    | Some n => Ok (mkCursor (new_lines st) n)
    | None => Ok st
    end.
Proof.
  intros Hat. unfold parse_line, start_read. rewrite Hat, hunk_start_field.
  destruct (has_char "+" line); [|reflexivity].
  destruct (Py.int (start_field line)) as [n|e] eqn:E; [reflexivity|].
  now rewrite (int_raises _ _ E).
Qed.

Lemma all_int_space_chars (s : string) :
  Py.all_int_space s = all_chars Py.int_isspace s.
Proof.
  induction s as [|a s IH]; [reflexivity|].
  cbn [Py.all_int_space all_chars]. now rewrite IH.
Qed.

Lemma numeral_digit (c : ascii) : Py.isdigit c = true -> numeral_char c = true.
Proof. unfold numeral_char. now intros ->. Qed.

Lemma numeral_underscore (c : ascii) :
  Ascii.eqb c Py.underscore = true -> numeral_char c = true.
Proof. unfold numeral_char. intros ->. now rewrite orb_true_r. Qed.

Lemma numeral_space (c : ascii) :
  Py.int_isspace c = true -> numeral_char c = true.
Proof. unfold numeral_char. intros ->. now rewrite !orb_true_r. Qed.

Lemma int_scan_chars (s : string) :
  forall prev ds rest,
    Py.int_scan prev s = Some (ds, rest) ->
    all_chars Py.int_isspace rest = true ->
    all_chars numeral_char s = true.
Proof.
  induction s as [|c s IH]; intros prev ds rest H Hrest; [reflexivity|].
  cbn [Py.int_scan] in H. cbn [all_chars].
  destruct (Ascii.eqb c Py.underscore) eqn:Eu.
  - rewrite (numeral_underscore c Eu). cbn [andb].
    destruct prev; [discriminate|]. now apply (IH true ds rest).
  - destruct (Py.isdigit c) eqn:Ed.
    + rewrite (numeral_digit c Ed). cbn [andb].
      destruct (Py.int_scan false s) as [[ds' rest']|] eqn:E; [|discriminate].
      injection H as _ <-. now apply (IH false ds' rest').
    + destruct prev; [discriminate|]. injection H as _ <-.
      exact (all_chars_impl _ _ _ numeral_space Hrest).
Qed.

Lemma int_unsigned_chars (s : string) (n : Z) :
  Py.int_unsigned s = Ok n -> all_chars numeral_char s = true.
Proof.
  unfold Py.int_unsigned. destruct s as [|c s]; [discriminate|].
  destruct (Ascii.eqb c Py.underscore); [discriminate|].
  destruct (Py.int_scan false (String c s)) as [[ds rest]|] eqn:E;
    [|discriminate].
  destruct (Py.all_int_space rest) eqn:Hrest; [|discriminate].
  intros _. rewrite all_int_space_chars in Hrest.
  exact (int_scan_chars _ _ _ _ E Hrest).
Qed.

Lemma int_lstrip_chars (s : string) :
  all_chars numeral_char (Py.int_lstrip s) = true ->
  all_chars numeral_char s = true.
Proof.
  induction s as [|c s IH]; [reflexivity|].
  cbn [Py.int_lstrip]. destruct (Py.int_isspace c) eqn:E; [|auto].
  intros H. cbn [all_chars]. rewrite (numeral_space c E). now apply IH.
Qed.

(** [int] reads nothing in an empty text, nor in a text that holds a byte
    other than a digit, an underscore, a sign or white space. *)
Lemma int_reads_numerals (s : string) (n : Z) :
  Py.int s = Ok n -> s <> "" /\ all_chars numeral_char s = true.
Proof.
  intros H. split; [intros ->; discriminate|].
  apply int_lstrip_chars. unfold Py.int in H.
  destruct (Py.int_lstrip s) as [|c s']; [discriminate|].
  destruct (Ascii.eqb c "+") eqn:Ep.
  { cbn [all_chars]. unfold numeral_char at 1. rewrite Ep, !orb_true_r.
    exact (int_unsigned_chars _ _ H). }
  destruct (Ascii.eqb c "-") eqn:Em.
  { cbn [all_chars]. unfold numeral_char at 1. rewrite Em, !orb_true_r.
    destruct (Py.int_unsigned s') as [m|e] eqn:E; [|discriminate].
    exact (int_unsigned_chars _ _ E). }
  exact (int_unsigned_chars _ _ H).
Qed.

Lemma no_start_without_plus (line : string) :
  has_char "+" line = false -> start_read line = None.
Proof. unfold start_read. now intros ->. Qed.

Lemma no_start_in_other_text (line : string) :
  start_field line = "" \/ all_chars numeral_char (start_field line) = false ->
  start_read line = None.
Proof.
  intros H. unfold start_read.
  destruct (has_char "+" line); [|reflexivity].
  destruct (Py.int (start_field line)) as [n|e] eqn:E; [|reflexivity].
  destruct (int_reads_numerals _ _ E) as [Hne Hall].
  destruct H as [H|H]; [contradiction | congruence].
Qed.

(** C3, as the code has it.  An [@@] line of ASCII text from which no
    start is read, because it holds no [+] or because its start field is
    no integer literal (it is empty, or holds a byte that is no digit,
    underscore, sign or white space, or is otherwise refused by [int]),
    raises nothing and leaves the cursor and the recorded lines as they
    were; the lines after it are read as if it were not there, so an added
    line that follows is still recorded, at the cursor's current value.
    An [@@] line from which a start is read sets the cursor to it,
    whatever else the line holds. *)
Theorem malformed_header_skipped
    (st : cursor) (pre post : list string) (header : string) :
  Py.startswith header "@@" = true ->
  is_ascii header = true ->
  (start_read header = None ->
   parse_line st header = Ok st
   /\ parse_lines st (pre ++ header :: post) = parse_lines st (pre ++ post))
  /\ (has_char "+" header = false -> start_read header = None)
  /\ (start_field header = ""
      \/ all_chars numeral_char (start_field header) = false ->
      start_read header = None)
  /\ (forall n,
         start_read header = Some n ->
         parse_line st header = Ok (mkCursor (new_lines st) n)).
Proof.
  intros Hat _. split; [|split; [|split]].
  - intros Hnone.
    assert (Hskip : forall st0, parse_line st0 header = Ok st0).
    { intros st0. now rewrite (parse_line_header st0 header Hat), Hnone. }
    split; [apply Hskip|].
    rewrite !parse_lines_app.
    destruct (parse_lines st pre) as [st1|e1]; cbn [rbind]; [|reflexivity].
    cbn [parse_lines]. now rewrite Hskip.
  - apply no_start_without_plus.
  - apply no_start_in_other_text.
  - intros n Hn. now rewrite (parse_line_header st header Hat), Hn.
Qed.

Lemma malformed_header_skipped_witness :
  (start_read "@@ garbage @@" = None ->
   parse_line (mkCursor [4] 7) "@@ garbage @@" = Ok (mkCursor [4] 7)
   /\ parse_lines (mkCursor [4] 7) ([" a"] ++ "@@ garbage @@" :: ["+b"])
      = parse_lines (mkCursor [4] 7) ([" a"] ++ ["+b"]))
  /\ (has_char "+" "@@ garbage @@" = false
      -> start_read "@@ garbage @@" = None)
  /\ (start_field "@@ garbage @@" = ""
      \/ all_chars numeral_char (start_field "@@ garbage @@") = false ->
      start_read "@@ garbage @@" = None)
  /\ (forall n,
         start_read "@@ garbage @@" = Some n ->
         parse_line (mkCursor [4] 7) "@@ garbage @@"
         = Ok (mkCursor (new_lines (mkCursor [4] 7)) n)).
Proof.
  apply (malformed_header_skipped (mkCursor [4] 7) [" a"] ["+b"]
           "@@ garbage @@"); reflexivity.
Defined.

(** Starts read and not read: no [+] in the line; a start field that is not
    a number; a number after a [+] that belongs to no range; a start in
    white space, with an underscore, with a sign. *)
Lemma starts_read :
  start_read "@@ garbage @@" = None
  /\ start_read "@@ -1,2 +x,3 @@" = None
  /\ start_read "@@ -1,2 ++3,3 @@" = None
  /\ start_read "@@ -3,4 @@ i+1" = Some 1
  /\ start_read "@@ -1,2 + 5 ,3 @@" = Some 5
  /\ start_read "@@ -1,2 +1_0,3 @@" = Some 10
  /\ start_read "@@ -1,2 +-3 @@" = Some (-3).
Proof. repeat split; vm_compute; reflexivity. Qed.

(** C9, as the code has it.  An added line met before any other added line
    and before any [@@] line from which a start is read is recorded at the
    value the cursor has then: 0 plus one for each earlier line that moved
    it.  The [@@] lines before it are of ASCII text and give no start.
    When no earlier line moved the cursor, as when the added line opens
    the diff, the line is recorded as 0, so the result can hold 0. *)
Theorem added_before_header
    (diff : string) (pre post : list string) (line : string) :
  Py.split diff Py.nl = pre ++ line :: post ->
  Forall (fun l => is_added l = false
                   /\ (Py.startswith l "@@" = true ->
                       is_ascii l = true /\ start_read l = None)) pre ->
  is_added line = true ->
  (exists rest,
      parse_diff_for_new_lines diff
      = Ok (Z.of_nat (List.length (filter advances pre)) :: rest))
  /\ (filter advances pre = [] ->
      exists rest, parse_diff_for_new_lines diff = Ok (0 :: rest)).
Proof.
  intros Hsplit Hpre Hadd.
  assert (Hpre' : Forall (fun l => is_added l = false
                                   /\ (Py.startswith l "@@" = true ->
                                       exists e, hunk_start l = Raise e))
                         pre).
  { eapply Forall_impl; [|exact Hpre].
    intros l [Hl Hhdr]. split; [exact Hl|].
    intros Hat. destruct (Hhdr Hat) as [_ Hnone].
    rewrite hunk_start_field. unfold start_read in Hnone.
    destruct (has_char "+" l); [|eauto].
    destruct (Py.int (start_field l)) as [n|e]; [discriminate | eauto]. }
  assert (Hmain : exists rest,
             parse_diff_for_new_lines diff
             = Ok (Z.of_nat (List.length (filter advances pre)) :: rest)).
  { unfold parse_diff_for_new_lines. rewrite Hsplit, parse_lines_app.
    rewrite (parse_lines_before_header pre _ Hpre'). simpl.
    assert (Hat : Py.startswith line "@@" = false).
    { now apply is_added_not_header. }
    unfold parse_line at 1. rewrite Hat. unfold is_added in Hadd.
    rewrite Hadd. simpl.
    destruct (parse_lines_total post
                (mkCursor [Z.of_nat (List.length (filter advances pre))]
                   (Z.of_nat (List.length (filter advances pre)) + 1)))
      as [st' Hst'].
    rewrite Hst'. simpl.
    destruct (parse_lines_extends _ _ _ Hst') as [more ->]. simpl. eauto. }
  split; [exact Hmain|].
  intros Hnone. rewrite Hnone in Hmain. exact Hmain.
Qed.

Lemma added_before_header_witness :
  (exists rest,
      parse_diff_for_new_lines
        ("@@ garbage @@" ++ Py.nl ++ "\ note" ++ Py.nl ++ "+a" ++ Py.nl ++ "+b")
      = Ok (Z.of_nat
              (List.length (filter advances ["@@ garbage @@"; "\ note"]))
            :: rest))
  /\ (filter advances ["@@ garbage @@"; "\ note"] = [] ->
      exists rest,
        parse_diff_for_new_lines
          ("@@ garbage @@" ++ Py.nl ++ "\ note" ++ Py.nl ++ "+a" ++ Py.nl
           ++ "+b")
        = Ok (0 :: rest)).
Proof.
  apply (added_before_header _ ["@@ garbage @@"; "\ note"] ["+b"] "+a").
  - reflexivity.
  - repeat constructor; discriminate.
  - reflexivity.
Defined.

(** ** The body of a comment, for every finding *)

Lemma emoji_of_text (severity : string) :
  emoji_of (VStr severity) = Ok (glyph severity).
Proof.
  unfold emoji_of, severity_emoji, assoc, glyph.
  rewrite (String.eqb_sym "critical"), (String.eqb_sym "warning"),
    (String.eqb_sym "suggestion").
  destruct (severity =? "critical")%string; [reflexivity|].
  destruct (severity =? "warning")%string; [reflexivity|].
  destruct (severity =? "suggestion")%string; reflexivity.
Qed.

(** What [format_comment] returns for every finding.  A severity that is
    text has the glyph of [glyph]; a finding without a severity has the
    glyph of a suggestion; a severity that is null, a boolean or a number
    has the fallback glyph; a severity that is an array or an object
    raises TypeError.  The message follows the marker, as [str] prints
    it, and is empty when the finding has none.  The quoted block follows
    exactly when the finding has a suggestion that counts as true. *)
Lemma format_comment_of_finding (repr : value -> string) (comment : dict) :
  let message :=
    match lookup comment "message" with
    | Some v => str repr v
    | None => ""
    end in
  let block :=
    match lookup comment "suggestion" with
    | Some v => if truthy v then suggestion_block (str repr v) else ""
    | None => ""
    end in
  format_comment repr comment
  = match lookup comment "severity" with
    | None => Ok ("💡" ++ " **RejPAL**: " ++ message ++ block)%string
    | Some (VStr severity) =>
        Ok (glyph severity ++ " **RejPAL**: " ++ message ++ block)%string
    | Some (VList _) => Raise TypeError
    | Some (VDict _) => Raise TypeError
    | Some _ => Ok ("💬" ++ " **RejPAL**: " ++ message ++ block)%string
    end.
Proof.
  intros message block.
  assert (Hbody : forall emoji,
             (if truthy (get_default comment "suggestion" (VStr ""))
              then Ok ((emoji ++ " **RejPAL**: "
                        ++ str repr (get_default comment "message" (VStr "")))
                       ++ Py.nl ++ Py.nl ++ "> 💡 **Návrh**: "
                       ++ str repr (get_default comment "suggestion"
                                      (VStr "")))%string
              else Ok (emoji ++ " **RejPAL**: "
                       ++ str repr (get_default comment "message"
                                      (VStr "")))%string)
             = Ok (emoji ++ " **RejPAL**: " ++ message ++ block)%string).
  { intros emoji. subst message block. unfold get_default, suggestion_block.
    assert (Hm : str repr match lookup comment "message" with
                          | Some v => v
                          | None => VStr ""
                          end
                 = match lookup comment "message" with
                   | Some v => str repr v
                   | None => ""
                   end).
    { now destruct (lookup comment "message"). }
    rewrite Hm.
    destruct (lookup comment "suggestion") as [v|]; cbn [truthy nonempty].
    - destruct (truthy v).
      + now rewrite !string_app_assoc.
      + now rewrite string_app_nil_r.
    - cbn. now rewrite string_app_nil_r. }
  unfold format_comment.
  unfold get_default at 1.
  destruct (lookup comment "severity") as [[| | | |severity| |]|];
    try rewrite emoji_of_text; cbn [emoji_of rbind];
    try reflexivity; apply Hbody.
Qed.

(** C8 at a finding on an added line whose severity is the JSON array
    [["critical"]]: the finding passes the filter of [analyze_with_ai],
    and [format_comment] raises TypeError for it where a body with the
    fallback glyph is expected; the same finding with the severity
    [urgent] gets that body. *)
Theorem array_severity_gets_no_glyph :
  is_valid_comment [11] (VDict array_severity_finding) = true
  /\ lookup array_severity_finding "severity" = Some (VList [VStr "critical"])
  /\ (forall repr,
         format_comment repr array_severity_finding = Raise TypeError)
  /\ (forall repr,
         format_comment repr array_severity_finding
         <> Ok ("💬" ++ " **RejPAL**: " ++ "m")%string)
  /\ (forall repr,
         format_comment repr
           [("line", VInt 11); ("severity", VStr "urgent");
            ("message", VStr "m")]
         = Ok ("💬" ++ " **RejPAL**: " ++ "m")%string).
Proof.
  repeat split; try reflexivity.
  intros repr. discriminate.
Qed.

(** ** The summary note on a server that keeps the notes *)

Lemma placeholder_is_summary (i : Z) (p : option position) :
  is_summary_note (mkNote i PLACEHOLDER p) = true.
Proof. reflexivity. Qed.

(** When the page listed shows no summary note, the pass creates one,
    whatever the merge request holds beyond that page. *)
Lemma ensure_summary_behind_page (per_page : nat) (w : store)
    (tr : list event) :
  find_existing_summary_note (firstn per_page (held w)) = None ->
  fst (ensure_summary store (keeping_server per_page) (mkIo w tr))
  = Ok (VInt (fresh w))
  /\ summaries
       (world (snd (ensure_summary store (keeping_server per_page)
                      (mkIo w tr))))
     = S (summaries w).
Proof.
  intros Hnone.
  unfold ensure_summary, get_mr_notes, create_mr_note, bind, request,
    raise_for_status, ret.
  cbn [keeping_server http_get_notes http_post_note world trace fst snd].
  cbn [Z.leb Z.ltb Z.compare Pos.compare Pos.compare_cont andb].
  rewrite Hnone. cbn [value_of_id truthy negb fst snd world].
  cbn [Z.leb Z.ltb Z.compare Pos.compare Pos.compare_cont andb].
  split; [reflexivity|].
  unfold summaries, added_note. cbn [held filter].
  rewrite placeholder_is_summary. reflexivity.
Qed.

Lemma summaries_present (pre post : list note) (n : note) :
  is_summary_note n = true ->
  (1 <= List.length (filter is_summary_note (pre ++ n :: post)))%nat.
Proof.
  intros H. rewrite filter_app, length_app. cbn [filter]. rewrite H.
  cbn [List.length]. lia.
Qed.

(** When the listing shows every note held, a merge request with at most
    one summary note has exactly one after the search. *)
Lemma ensure_summary_all_listed (per_page : nat) (w : store)
    (tr : list event) :
  (List.length (held w) <= per_page)%nat ->
  Forall (fun n => id n <> 0) (held w) ->
  (summaries w <= 1)%nat ->
  summaries
    (world (snd (ensure_summary store (keeping_server per_page) (mkIo w tr))))
  = 1%nat.
Proof.
  intros Hall Hid Hone.
  destruct (find_existing_summary_note (firstn per_page (held w)))
    as [i|] eqn:E.
  - unfold ensure_summary, get_mr_notes, create_mr_note, bind, request,
      raise_for_status, ret.
    cbn [keeping_server http_get_notes http_post_note world trace fst snd].
    cbn [Z.leb Z.ltb Z.compare Pos.compare Pos.compare_cont andb].
    rewrite E. cbn [value_of_id truthy].
    rewrite firstn_all2 in E by exact Hall.
    destruct (find_some _ _ E) as (pre & n & post & Hheld & _ & Hn & ->).
    assert (Hne : id n <> 0).
    { rewrite Forall_forall in Hid. apply Hid. rewrite Hheld.
      apply in_or_app. right. now left. }
    apply Z.eqb_neq in Hne. rewrite Hne. cbn [negb snd world].
    unfold summaries in *. rewrite Hheld in *.
    pose proof (summaries_present pre post n Hn). lia.
  - destruct (ensure_summary_behind_page per_page w tr E) as [_ ->].
    rewrite firstn_all2 in E by exact Hall.
    apply find_none in E. unfold summaries.
    rewrite (filter_none _ _ E). reflexivity.
Qed.

(** C4 on a merge request that holds the summary of an earlier pass and
    twenty remarks written after it: GitLab lists the twenty newest notes,
    the search finds no summary among them, and the pass creates a second
    summary note.  With nineteen remarks the summary is listed, and the
    pass reuses it. *)
Theorem second_summary_behind_first_page :
  summaries (discussed 20) = 1%nat
  /\ fst (pass_over (discussed 20)) = Ok tt
  /\ In (PostNote PLACEHOLDER 201) (trace (snd (pass_over (discussed 20))))
  /\ summaries (world (snd (pass_over (discussed 20)))) = 2%nat
  /\ summaries (discussed 19) = 1%nat
  /\ filter is_post_note (trace (snd (pass_over (discussed 19)))) = []
  /\ summaries (world (snd (pass_over (discussed 19)))) = 1%nat.
Proof.
  repeat split; try (vm_compute; reflexivity).
  vm_compute. right. right. right. right. left. reflexivity.
Qed.
